(** * video-converter: a shallow embedding of [bot.py]

    The development follows the layout of the source file:
    - text helpers ([sanitize_filename], [get_platform], the URL pattern);
    - the world the bot runs in (files on disk, the chat platform, the
      download and transcoding libraries) and a small state-and-exception
      monad for the code that talks to it;
    - [download_video], [compress_video] and [on_ready];
    - the properties of the specification, one theorem each.

    A Python [str] is a [string] whose characters are code points below
    256; a time stamp is a number of microseconds (the resolution of
    [datetime]); a file is a name with a size in bytes. *)

From Stdlib Require Import ZArith QArith String Ascii List Sorted Lia.
From stdpp Require Import base option list gmap strings pretty.

Local Open Scope string_scope.
Local Open Scope Z_scope.
Local Open Scope list_scope.

(** ** Text helpers *)

Module Text.

Section Strip.
Context {A : Type}.
Variable space : A -> bool.

Fixpoint lstrip (l : list A) : list A :=
  match l with
  | [] => []
  | c :: tl => if space c then lstrip tl else l
  end.

Definition rstrip (l : list A) : list A := rev (lstrip (rev l)).

(** [str.strip()]: both ends. *)
Definition strip (l : list A) : list A := lstrip (rstrip l).

(** A text with nothing to strip at either end. *)
Definition stripped (l : list A) : Prop :=
  (forall c, head l = Some c -> space c = false) /\
  (forall c, last l = Some c -> space c = false).

End Strip.

Section Remove.
Context {A : Type}.
Variable bad : A -> bool.

(** [re.sub(class, '', text)]: every character of the class is dropped. *)
Definition remove (l : list A) : list A :=
  List.filter (fun c => negb (bad c)) l.

End Remove.

(** Code points below 256 for which [str.isspace()] holds; the class [\s]
    of the [re] module is the same set. *)
Definition is_space (c : ascii) : bool :=
  let n := N_of_ascii c in
  ((9 <=? n) && (n <=? 13) || (28 <=? n) && (n <=? 32)
   || (n =? 133) || (n =? 160))%N.

(** The character class of [sanitize_filename]: backslash, slash, star,
    question mark, colon, double quote, less-than, greater-than, bar. *)
Definition is_unsafe (c : ascii) : bool :=
  existsb (N.eqb (N_of_ascii c)) [92; 47; 42; 63; 58; 34; 60; 62; 124]%N.

Definition chars (s : string) : list ascii := list_ascii_of_string s.
Definition text (l : list ascii) : string := string_of_list_ascii l.

End Text.

Import Text.

(** [sanitize_filename], lines 18-20. *)
Definition sanitize_filename (text_ : string) : string :=
  text (strip is_space (remove is_unsafe (chars text_))).

(** [needle in hay] for strings. *)
Fixpoint starts_with (needle hay : list ascii) : bool :=
  match needle, hay with
  | [], _ => true
  | _ :: _, [] => false
  | a :: n', b :: h' => Ascii.eqb a b && starts_with n' h'
  end.

Fixpoint contains_chars (needle hay : list ascii) : bool :=
  starts_with needle hay ||
  match hay with
  | [] => false
  | _ :: h' => contains_chars needle h'
  end.

Definition contains (needle hay : string) : bool :=
  contains_chars (chars needle) (chars hay).

(** [get_platform], lines 22-30. *)
Definition get_platform (url : string) : string :=
  if contains "instagram.com/reel" url then "instagram"
  else if contains "youtube.com" url || contains "youtu.be" url then "youtube"
  else if contains "reddit.com" url then "reddit"
  else "unknown".

(** The pattern [(https?://\S+)] of line 126 matched at the start of a text:
    the length of the match, if any. *)
Fixpoint nonspace_run (s : list ascii) : nat :=
  match s with
  | [] => 0
  | c :: tl => if is_space c then 0 else S (nonspace_run tl)
  end.

Definition url_match (s : list ascii) : option nat :=
  let scheme :=
    if starts_with (chars "https://") s then Some 8%nat
    else if starts_with (chars "http://") s then Some 7%nat
    else None in
  match scheme with
  | Some k =>
      match nonspace_run (skipn k s) with
      | O => None
      | S n => Some (k + S n)%nat
      end
  | None => None
  end.

(** [re.findall]: leftmost matches, not overlapping; [skip] counts the
    characters of the previous match still to pass over. *)
Fixpoint findall_from (skip : nat) (s : list ascii) : list string :=
  match s with
  | [] => []
  | _ :: tl =>
      match skip with
      | S k => findall_from k tl
      | O =>
          match url_match s with
          | Some n => text (firstn n s) :: findall_from (n - 1) tl
          | None => findall_from 0 tl
          end
      end
  end.

Definition findall_urls (content : string) : list string :=
  findall_from 0 (chars content).

(** ** The world of the bot *)

(** Exceptions the code can meet; all of them are instances of Python's
    [Exception], so every [except Exception] clause catches them. *)
Inductive exn : Type :=
  | FileNotFoundError
  | ZeroDivisionError
  | AttributeError
  | KeyError
  | DownloadError
  | EncodeError
  | HTTPException
  | OverflowError.

Record User := { user_id : Z; user_tag : string }.

Record Message := {
  msg_id : Z;
  msg_author : User;
  msg_content : string;
  msg_created_at : Z
}.

(** A channel object; [channel_name] is [None] when the object has no
    [name] attribute. *)
Record Channel := { channel_name : option string }.

(** A value of the metadata dictionary of the extractor. *)
Inductive pyval : Type := PyNone | PyStr (s : string).

Record Info := {
  info_title : option pyval;
  info_uploader : option pyval;
  info_channel : option pyval;
  info_subreddit : option pyval
}.

(** The arguments of [clip.write_videofile], lines 71-81. *)
Record EncodeRequest := {
  enc_input : string;
  enc_output : string;
  enc_bitrate : string;
  enc_codec : string;
  enc_audio_codec : string
}.

(** The [print] statements of the source, by line. *)
Inductive LogLine : Type :=
  | LoggedIn
  | ChannelNotFound (channel_id : Z)
  | ProcessingURL (url : string) (message : Z) (display : string)
  | DownloadFailed (e : exn)
  | CompressionFailed (e : exn)
  | Replied (message : Z) (url : string) (display : string)
  | ReplyFailed (message : Z) (display : string) (e : exn)
  | ProcessingComplete (display : string)
  | Waiting
  | SentSummary
  | SummaryFailed (e : exn)
  | LogChannelNotFound.

(** What an observer of a run sees, in order. *)
Inductive Event : Type :=
  | Print (line : LogLine)
  | Sleep (seconds : Z)
  | Encode (req : EncodeRequest)
  | Reply (message : Z) (content : string) (file : string) (ok : bool)
  | Send (channel : Z) (content : string) (ok : bool)
  | Close.

(** The parts of the run the source does not decide: the environment
    variable, the chat platform, the clock and the two media libraries.
    Each call to the outside is numbered ([nat]), so that two calls with
    the same arguments may end differently.  A library call that writes a
    file reports two independent things: whether it raised, and the size
    of the file it left at its output path, if it left one.
    [history] gives the messages of a channel at the time of the call,
    newest first; [history_default_limit] is the number of messages the
    chat library hands out when the caller names no limit ([None]: all). *)
Record Env := {
  client_user : User;
  getenv_LOOKBACK_DAYS : option Z;
  get_channel : Z -> option Channel;
  history : nat -> Z -> option (list Message);
  history_default_limit : option nat;
  utcnow : nat -> Z;
  strftime : Z -> string;
  extract_info : nat -> string -> option Info;
  ydl_download : nat -> string -> string -> bool * option N;
  VideoFileClip : nat -> string -> option Q;
  write_videofile : nat -> EncodeRequest -> bool * option N;
  reply_accepted : nat -> Z -> bool;
  send_accepted : nat -> Z -> bool
}.

Record World := {
  files : gmap string N;
  tick : nat;
  events : list Event
}.

Definition set_files (f : gmap string N) (w : World) : World :=
  {| files := f; tick := tick w; events := events w |}.

(** ** A state-and-exception monad *)

Inductive Result (A : Type) : Type :=
  | Ret (a : A)
  | Raise (e : exn).
Arguments Ret {A} a.
Arguments Raise {A} e.

Definition M (A : Type) : Type := World -> Result A * World.

Definition ret {A} (a : A) : M A := fun w => (Ret a, w).
Definition raise {A} (e : exn) : M A := fun w => (Raise e, w).

Definition bind {A B} (m : M A) (k : A -> M B) : M B :=
  fun w =>
    match m w with
    | (Ret a, w') => k a w'
    | (Raise e, w') => (Raise e, w')
    end.

(** [try: m except Exception as e: h e] *)
Definition try_except {A} (m : M A) (h : exn -> M A) : M A :=
  fun w =>
    match m w with
    | (Ret a, w') => (Ret a, w')
    | (Raise e, w') => h e w'
    end.

Declare Scope bot_scope.
Delimit Scope bot_scope with bot.
Notation "x <- c1 ;; c2" := (bind c1 (fun x => c2))
  (at level 100, c1 at next level, right associativity) : bot_scope.
Notation "c1 ;; c2" := (bind c1 (fun _ => c2))
  (at level 100, right associativity) : bot_scope.
Local Open Scope bot_scope.

(** A [for] loop whose body updates the loop's local state. *)
Fixpoint for_each {A S} (body : S -> A -> M S) (l : list A) (s : S) : M S :=
  match l with
  | [] => ret s
  | x :: tl => s' <- body s x ;; for_each body tl s'
  end.

Definition emit (e : Event) : M unit :=
  fun w =>
    (Ret tt, {| files := files w; tick := tick w; events := events w ++ [e] |}).

Definition print (l : LogLine) : M unit := emit (Print l).

(** The number of the next call to the outside. *)
Definition next_call : M nat :=
  fun w =>
    (Ret (tick w),
     {| files := files w; tick := S (tick w); events := events w |}).

(** *** The file system *)

(** Modelled from the spec: the file system of section 6 (reads a file's
    size, writes and deletes files in the working directory).  A missing
    file makes [os.path.getsize] and [os.remove] raise. *)
Definition getsize (path : string) : M N :=
  fun w =>
    match files w !! path with
    | Some n => (Ret n, w)
    | None => (Raise FileNotFoundError, w)
    end.

Definition path_exists (path : string) : M bool :=
  fun w => (Ret (bool_decide (is_Some (files w !! path))), w).

Definition os_remove (path : string) : M unit :=
  fun w =>
    match files w !! path with
    | Some _ => (Ret tt, set_files (delete path (files w)) w)
    | None => (Raise FileNotFoundError, w)
    end.

(** The effect on the disk of a library call that may leave a file. *)
Definition leave_file (path : string) (written : option N) : M unit :=
  fun w =>
    match written with
    | Some n => (Ret tt, set_files (<[path := n]> (files w)) w)
    | None => (Ret tt, w)
    end.

(** ** Configuration, lines 9-16 *)

Definition MAX_DISCORD_FILESIZE_MB : Q := 8 # 1.

Definition CHANNEL_IDS : list Z :=
  [911164219238514688; 911164241216667678;
   1005713269094350938; 912017250909847623;
   912017322993139752; 912017388042592286;
   912017417142689872; 1218954199916871691].

Definition LOG_CHANNEL_ID : Z := 1056057016235348039.

(** [int(os.getenv('LOOKBACK_DAYS', 3))]; the variable, when set, is taken
    as the integer it spells. *)
Definition LOOKBACK_DAYS (env : Env) : Z :=
  match getenv_LOOKBACK_DAYS env with
  | Some d => d
  | None => 3
  end.

(** ** Numbers and time *)

(** [os.path.getsize(p) / (1024 * 1024)] *)
Definition size_in_mb (bytes : N) : Q := Z.of_N bytes # 1048576.

(** Python's [/]: division by zero raises.  The quotient is exact here;
    Python rounds it to a binary64 float, so what is derived from its
    value holds of the code only where that rounding cannot matter. *)
Definition py_div (a b : Q) : M Q :=
  if Qeq_bool b 0 then raise ZeroDivisionError else ret (a / b)%Q.

(** Python's [int] of a number: truncation towards zero. *)
Definition py_int (q : Q) : Z := Z.quot (Qnum q) (Z.pos (Qden q)).

(** [timedelta(seconds=n)] and [timedelta(days=n)], in microseconds. *)
Definition timedelta_seconds (n : Z) : Z := n * 1000000.
Definition timedelta_days (n : Z) : Z := n * 86400 * 1000000.

(** [timedelta(days=n)] raises when [n] is beyond 999999999 days either
    way. *)
Definition py_timedelta_days (n : Z) : M Z :=
  if (-999999999 <=? n) && (n <=? 999999999)
  then ret (timedelta_days n) else raise OverflowError.

(** The first and the last instant a [datetime] can hold (years 1 to
    9999), in microseconds from the epoch of 1970. *)
Definition datetime_min : Z := -62135596800000000.
Definition datetime_max : Z := 253402300799999999.

(** [t + delta] on a [datetime]: a result outside the range raises. *)
Definition datetime_add (t delta : Z) : M Z :=
  if (datetime_min <=? t + delta) && (t + delta <=? datetime_max)
  then ret (t + delta) else raise OverflowError.

(** ** The dictionary [processed_counts]: keys in insertion order *)

Definition Dict : Type := list (Z * Z).

Fixpoint dict_get (k : Z) (d : Dict) : option Z :=
  match d with
  | [] => None
  | (k', v) :: tl => if Z.eqb k k' then Some v else dict_get k tl
  end.

(** [d[k] = v]: an existing key keeps its place, a new key goes last. *)
Fixpoint dict_set (k v : Z) (d : Dict) : Dict :=
  match d with
  | [] => [(k, v)]
  | (k', v') :: tl =>
      if Z.eqb k k' then (k, v) :: tl else (k', v') :: dict_set k v tl
  end.

(** [{channel_id: 0 for channel_id in ids}], line 98. *)
Definition init_counts (ids : list Z) : Dict :=
  fold_left (fun d channel_id => dict_set channel_id 0 d) ids [].

(** [d[k] += 1], line 144. *)
Definition dict_incr (k : Z) (d : Dict) : M Dict :=
  match dict_get k d with
  | Some v => ret (dict_set k (v + 1) d)
  | None => raise KeyError
  end.

(** ** The program *)

Section Bot.
Variable env : Env.

Definition truthy (v : option pyval) : option string :=
  match v with
  | Some (PyStr s) => if String.eqb s "" then None else Some s
  | _ => None
  end.

(** [s.split("\n")[0]] *)
Fixpoint first_line (s : list ascii) : list ascii :=
  match s with
  | [] => []
  | c :: tl => if Ascii.eqb c "010"%char then [] else c :: first_line tl
  end.

(** The file name of lines 38-41. *)
Definition video_filename (info : Info) : M (string * string) :=
  raw <- match info_title info with
         | None => ret "untitled"
         | Some (PyStr s) => ret s
         | Some PyNone => raise AttributeError
         end ;;
  let title := text (firstn 60 (first_line (chars raw))) in
  let uploader :=
    match truthy (info_uploader info) with
    | Some s => s
    | None =>
        match truthy (info_channel info) with
        | Some s => s
        | None =>
            match truthy (info_subreddit info) with
            | Some s => s
            | None => "unknown"
            end
        end
    end in
  ret (sanitize_filename (uploader +:+ " " +:+ title +:+ ".mp4"), uploader).

(** [download_video], lines 32-56. *)
Definition download_video (url : string) : M (string * string) :=
  try_except
    (k <- next_call ;;
     info <- match extract_info env k url with
             | Some i => ret i
             | None => raise DownloadError
             end ;;
     named <- video_filename info ;;
     let filename := fst named in
     k' <- next_call ;;
     leave_file filename (snd (ydl_download env k' url filename)) ;;
     (if fst (ydl_download env k' url filename)
      then raise DownloadError else ret tt) ;;
     ret named)
    (fun e => print (DownloadFailed e) ;; ret ("", "")).

(** The re-encoding stage of [compress_video], lines 66-83.  The request
    keeps the two paths, the bitrate and the two codecs; the temporary
    audio file of lines 76-77, which the encoder writes next to its output
    and removes when it is done, is not on this disk. *)
Definition reencode (input_path output_path : string) (max_mb : Q) : M string :=
  k <- next_call ;;
  duration <- match VideoFileClip env k input_path with
              | Some d => ret d
              | None => raise EncodeError
              end ;;
  target_bitrate <- py_div (max_mb * (8192 # 1))%Q duration ;;
  let req := {| enc_input := input_path;
                enc_output := output_path;
                enc_bitrate := pretty (py_int target_bitrate) +:+ "k";
                enc_codec := "libx264";
                enc_audio_codec := "aac" |} in
  emit (Encode req) ;;
  k' <- next_call ;;
  leave_file output_path (snd (write_videofile env k' req)) ;;
  (if fst (write_videofile env k' req) then raise EncodeError else ret tt) ;;
  ret output_path.

(** [compress_video], lines 58-86. *)
Definition compress_video (input_path : string) (max_mb : Q) : M string :=
  size <- getsize input_path ;;
  if Qle_bool (size_in_mb size) max_mb then ret input_path
  else
    let output_path := "compressed_" +:+ input_path in
    try_except
      (reencode input_path output_path max_mb)
      (fun e => print (CompressionFailed e) ;; ret input_path).

(** *** The chat platform *)

Definition channel_history (channel_id : Z) : M (list Message) :=
  k <- next_call ;;
  match history env k channel_id with
  | Some l => ret l
  | None => raise HTTPException
  end.

(** Modelled from the spec: the history interface of section 6 (a
    result-count limit; filtering after a time stamp, oldest first).
    The platform keeps a channel's messages newest first; [limit] keeps
    the most recent ones in that order. *)
Definition history_limit (channel_id : Z) (limit : nat) : M (list Message) :=
  l <- channel_history channel_id ;;
  ret (firstn limit l).

(** Modelled from the spec: the history interface of section 6, with
    [after] and [oldest_first]: the messages created strictly after the
    time stamp, in the reverse of the platform's order.  Line 122 names no
    limit: the library hands out the first [history_default_limit] of
    them, a parameter of the environment ([None]: all of them, as the
    spec words it). *)
Definition history_after (channel_id : Z) (after : Z) : M (list Message) :=
  l <- channel_history channel_id ;;
  let found := rev (List.filter (fun m => (after <? msg_created_at m)%Z) l) in
  ret (match history_default_limit env with
       | Some limit => firstn limit found
       | None => found
       end).

(** [msg.author == client.user]: users are compared by identifier. *)
Definition is_self (m : Message) : bool :=
  (user_id (msg_author m) =? user_id (client_user env))%Z.

(** [msg.reply(content=..., file=discord.File(path), ...)], line 142:
    the file is opened first, then the request is made. *)
Definition reply (m : Message) (content path : string) : M unit :=
  present <- path_exists path ;;
  if present : bool then
    k <- next_call ;;
    let ok := reply_accepted env k (msg_id m) in
    emit (Reply (msg_id m) content path ok) ;;
    if ok then ret tt else raise HTTPException
  else raise FileNotFoundError.

Definition send (channel_id : Z) (content : string) : M unit :=
  k <- next_call ;;
  let ok := send_accepted env k channel_id in
  emit (Send channel_id content ok) ;;
  if ok then ret tt else raise HTTPException.

Definition sleep (seconds : Z) : M unit := emit (Sleep seconds).

(** *** [on_ready], lines 93-173 *)

(** Line 107. *)
Definition channel_display (channel : Channel) (channel_id : Z) : string :=
  match channel_name channel with
  | Some name => name +:+ " (" +:+ pretty channel_id +:+ ")"
  | None => pretty channel_id
  end.

(** Lines 109-119: the time after which messages are new. *)
Definition resume_cursor (channel_id : Z) : M Z :=
  recent <- history_limit channel_id 500 ;;
  match List.find is_self recent with
  | Some last_bot_msg =>
      datetime_add (msg_created_at last_bot_msg) (timedelta_seconds 1)
  | None =>
      k <- next_call ;;
      delta <- py_timedelta_days (LOOKBACK_DAYS env) ;;
      datetime_add (utcnow env k) (- delta)
  end.

(** Lines 141-146: the reply and, when it went through, the count. *)
Definition reply_and_count (channel_id : Z) (display : string) (m : Message)
    (url video_path : string) (processed_counts : Dict) : M Dict :=
  let content :=
    "sent on " +:+ strftime env (msg_created_at m) +:+ " by "
    +:+ user_tag (msg_author m) in
  try_except
    (reply m content video_path ;;
     print (Replied (msg_id m) url display) ;;
     dict_incr channel_id processed_counts)
    (fun e => print (ReplyFailed (msg_id m) display e) ;; ret processed_counts).

(** Lines 148-152. *)
Definition clean_up (video_file video_path : string) : M unit :=
  present <- path_exists video_file ;;
  (if present : bool then os_remove video_file else ret tt) ;;
  if negb (String.eqb video_path video_file) then
    present' <- path_exists video_path ;;
    if present' : bool then os_remove video_path else ret tt
  else ret tt.

(** Lines 133-152: what is done with a downloaded file. *)
Definition deliver (channel_id : Z) (display : string) (m : Message)
  (url : string) (processed_counts : Dict) (video_file : string) : M Dict :=
size <- getsize video_file ;;
video_path <-
  (if negb (Qle_bool (size_in_mb size) MAX_DISCORD_FILESIZE_MB)
   then compress_video video_file MAX_DISCORD_FILESIZE_MB
   else ret video_file) ;;
counts <- reply_and_count channel_id display m url video_path
            processed_counts ;;
clean_up video_file video_path ;;
ret counts.

(** Lines 128-152: one URL of one message. *)
Definition process_url (channel_id : Z) (display : string) (m : Message)
  (processed_counts : Dict) (url : string) : M Dict :=
if negb (String.eqb (get_platform url) "unknown") then
  print (ProcessingURL url (msg_id m) display) ;;
  downloaded <- download_video url ;;
  let video_file := fst downloaded in
  if negb (String.eqb video_file "") then
    deliver channel_id display m url processed_counts video_file
  else ret processed_counts
else ret processed_counts.

(** Lines 124-127: the URLs of one message. *)
Definition process_message (channel_id : Z) (display : string)
    (processed_counts : Dict) (m : Message) : M Dict :=
  for_each (process_url channel_id display m)
    (findall_urls (msg_content m)) processed_counts.

(** Lines 100-159: one turn of the loop over the channels; [total] is
    [len(CHANNEL_IDS)]. *)
Definition process_channel (total : Z) (processed_counts : Dict)
    (item : Z * Z) : M Dict :=
  let '(idx, channel_id) := item in
  match get_channel env channel_id with
  | None =>
      print (ChannelNotFound channel_id) ;;
      ret processed_counts
  | Some channel =>
      let display := channel_display channel channel_id in
      last_time <- resume_cursor channel_id ;;
      new_messages <- history_after channel_id last_time ;;
      counts <- for_each (process_message channel_id display)
                  new_messages processed_counts ;;
      print (ProcessingComplete display) ;;
      (if idx <? total - 1 then print Waiting ;; sleep 60 else ret tt) ;;
      ret counts
  end.

(** [enumerate] *)
Fixpoint enumerate_from (i : Z) (l : list Z) : list (Z * Z) :=
  match l with
  | [] => []
  | x :: tl => (i, x) :: enumerate_from (i + 1) tl
  end.

(** Line 164. *)
Definition summary_line (entry : Z * Z) : string :=
  "total " +:+ pretty (snd entry) +:+ " msg converted in <#"
  +:+ pretty (fst entry) +:+ ">".

Definition summary_text (processed_counts : Dict) : string :=
  String.concat (String "010" EmptyString) (map summary_line processed_counts).

(** Lines 161-171. *)
Definition send_summary (processed_counts : Dict) : M unit :=
  match get_channel env LOG_CHANNEL_ID with
  | Some _ =>
      let summary := summary_text processed_counts in
      try_except
        (send LOG_CHANNEL_ID
           (if String.eqb summary "" then "No messages processed." else summary) ;;
         print SentSummary)
        (fun e => print (SummaryFailed e))
  | None => print LogChannelNotFound
  end.

(** [on_ready] for a list of channels. *)
Definition on_ready_for (ids : list Z) : M unit :=
  print LoggedIn ;;
  processed_counts <-
    for_each (process_channel (Z.of_nat (length ids)))
      (enumerate_from 0 ids) (init_counts ids) ;;
  send_summary processed_counts ;;
  emit Close.

Definition on_ready : M unit := on_ready_for CHANNEL_IDS.

End Bot.

(** The world before a run: a disk, no call made, nothing observed. *)
Definition start (disk : gmap string N) : World :=
  {| files := disk; tick := 0; events := [] |}.

(** ** Sample runs

    Concrete users, messages and environments on which the definitions
    above are evaluated further down. *)

Module Sample.

Definition bot : User := {| user_id := 1; user_tag := "converter#0001" |}.
Definition alice : User := {| user_id := 2; user_tag := "alice#1234" |}.

Definition first_channel : Z := 911164219238514688.
Definition second_channel : Z := 911164241216667678.

Definition clip_info : Info :=
  {| info_title := Some (PyStr "clip");
     info_uploader := Some (PyStr "up");
     info_channel := None;
     info_subreddit := None |}.

(** One message with two links to a video platform. *)
Definition two_links : Message :=
  {| msg_id := 10; msg_author := alice;
     msg_content := "https://youtu.be/a https://youtu.be/b";
     msg_created_at := 6000000 |}.

Definition one_link : Message :=
  {| msg_id := 11; msg_author := alice;
     msg_content := "look https://youtu.be/a";
     msg_created_at := 7000000 |}.

Definition another_link : Message :=
  {| msg_id := 12; msg_author := alice;
     msg_content := "and https://www.reddit.com/r/videos/x too";
     msg_created_at := 8000000 |}.

Definition bot_note : Message :=
  {| msg_id := 9; msg_author := bot;
     msg_content := "sent on 01-Jan-26 by alice#1234";
     msg_created_at := 4000000 |}.

Definition old_note : Message :=
  {| msg_id := 8; msg_author := alice;
     msg_content := "hello";
     msg_created_at := 3000000 |}.

(** A channel's history, newest first. *)
Definition timeline : list Message := [one_link; two_links; bot_note; old_note].

(** Every call to the outside succeeds; only the first configured channel
    and the log channel are accessible; the first channel holds
    [messages], newest first; a download leaves [size] bytes. *)
Definition calm (messages : list Message) (size : N) : Env :=
  {| client_user := bot;
     getenv_LOOKBACK_DAYS := None;
     get_channel := fun c =>
       if (c =? first_channel) || (c =? LOG_CHANNEL_ID)
       then Some {| channel_name := Some "general" |} else None;
     history := fun _ c => Some (if c =? first_channel then messages else []);
     history_default_limit := Some 100%nat;
     utcnow := fun _ => 100000000000;
     strftime := fun _ => "01-Jan-26";
     extract_info := fun _ _ => Some clip_info;
     ydl_download := fun _ _ _ => (false, Some size);
     VideoFileClip := fun _ _ => Some (10 # 1)%Q;
     write_videofile := fun _ _ => (false, Some 7000000%N);
     reply_accepted := fun _ _ => true;
     send_accepted := fun _ _ => true |}.

(** As [calm], with the parts named below replaced. *)
Definition with_history (h : nat -> Z -> option (list Message)) (e : Env) : Env :=
  {| client_user := client_user e;
     getenv_LOOKBACK_DAYS := getenv_LOOKBACK_DAYS e;
     get_channel := get_channel e;
     history := h;
     history_default_limit := history_default_limit e;
     utcnow := utcnow e;
     strftime := strftime e;
     extract_info := extract_info e;
     ydl_download := ydl_download e;
     VideoFileClip := VideoFileClip e;
     write_videofile := write_videofile e;
     reply_accepted := reply_accepted e;
     send_accepted := send_accepted e |}.

Definition with_channels (g : Z -> option Channel) (e : Env) : Env :=
  {| client_user := client_user e;
     getenv_LOOKBACK_DAYS := getenv_LOOKBACK_DAYS e;
     get_channel := g;
     history := history e;
     history_default_limit := history_default_limit e;
     utcnow := utcnow e;
     strftime := strftime e;
     extract_info := extract_info e;
     ydl_download := ydl_download e;
     VideoFileClip := VideoFileClip e;
     write_videofile := write_videofile e;
     reply_accepted := reply_accepted e;
     send_accepted := send_accepted e |}.

Definition with_download (d : nat -> string -> string -> bool * option N)
    (e : Env) : Env :=
  {| client_user := client_user e;
     getenv_LOOKBACK_DAYS := getenv_LOOKBACK_DAYS e;
     get_channel := get_channel e;
     history := history e;
     history_default_limit := history_default_limit e;
     utcnow := utcnow e;
     strftime := strftime e;
     extract_info := extract_info e;
     ydl_download := d;
     VideoFileClip := VideoFileClip e;
     write_videofile := write_videofile e;
     reply_accepted := reply_accepted e;
     send_accepted := send_accepted e |}.

Definition with_encoder (v : nat -> string -> option Q)
    (wv : nat -> EncodeRequest -> bool * option N) (e : Env) : Env :=
  {| client_user := client_user e;
     getenv_LOOKBACK_DAYS := getenv_LOOKBACK_DAYS e;
     get_channel := get_channel e;
     history := history e;
     history_default_limit := history_default_limit e;
     utcnow := utcnow e;
     strftime := strftime e;
     extract_info := extract_info e;
     ydl_download := ydl_download e;
     VideoFileClip := v;
     write_videofile := wv;
     reply_accepted := reply_accepted e;
     send_accepted := send_accepted e |}.

Definition with_replies (r : nat -> Z -> bool) (e : Env) : Env :=
  {| client_user := client_user e;
     getenv_LOOKBACK_DAYS := getenv_LOOKBACK_DAYS e;
     get_channel := get_channel e;
     history := history e;
     history_default_limit := history_default_limit e;
     utcnow := utcnow e;
     strftime := strftime e;
     extract_info := extract_info e;
     ydl_download := ydl_download e;
     VideoFileClip := VideoFileClip e;
     write_videofile := write_videofile e;
     reply_accepted := r;
     send_accepted := send_accepted e |}.

(** Another lookback window and another clock. *)
Definition with_lookback (days : option Z) (now : Z) (e : Env) : Env :=
  {| client_user := client_user e;
     getenv_LOOKBACK_DAYS := days;
     get_channel := get_channel e;
     history := history e;
     history_default_limit := history_default_limit e;
     utcnow := fun _ => now;
     strftime := strftime e;
     extract_info := extract_info e;
     ydl_download := ydl_download e;
     VideoFileClip := VideoFileClip e;
     write_videofile := write_videofile e;
     reply_accepted := reply_accepted e;
     send_accepted := send_accepted e |}.

(** A disk holding one video of the given size. *)
Definition disk_with (path : string) (size : N) : gmap string N :=
  {[ path := size ]}.

End Sample.

(** ** Vocabulary of the properties *)

(** [sat R Q m]: from every world, [m] ends in a world related by [R] to
    the one it started from, and a value it returns satisfies [Q]. *)
Definition sat {A} (R : World -> World -> Prop) (Q : A -> Prop) (m : M A) : Prop :=
  forall w r w', m w = (r, w') ->
    R w w' /\ (forall a, r = Ret a -> Q a).

(** [returns m]: [m] never raises. *)
Definition returns {A} (m : M A) : Prop :=
  forall w, exists a w', m w = (Ret a, w').

(** [extends P w w']: the events of [w'] are those of [w] followed by
    events that all satisfy [P]. *)
Definition extends (P : Event -> Prop) (w w' : World) : Prop :=
  exists d, events w' = events w ++ d /\ Forall P d.


Definition not_sleep (e : Event) : Prop :=
  match e with Sleep _ => False | _ => True end.

Definition not_send (e : Event) : Prop :=
  match e with Send _ _ _ => False | Close => False | _ => True end.

(** What one turn of the loop over the channels shows when it completes:
    a single line for a channel that is not found; otherwise the work on
    the channel, without any pause, then the closing line, then the
    60-second pause unless the turn is the last one. *)
Definition channel_segment (env : Env) (total idx channel_id : Z)
    (seg : list Event) : Prop :=
  match get_channel env channel_id with
  | None => seg = [Print (ChannelNotFound channel_id)]
  | Some channel =>
      exists body,
        Forall not_sleep body /\
        seg = body
              ++ [Print (ProcessingComplete (channel_display channel channel_id))]
              ++ (if idx <? total - 1 then [Print Waiting; Sleep 60] else [])
  end.

(** The summary step of lines 161-171, as an observer sees it. *)
Definition summary_step (step : list Event) : Prop :=
  step = [Print LogChannelNotFound] \/
  (exists content, step = [Send LOG_CHANNEL_ID content true; Print SentSummary]) \/
  (exists content e, step = [Send LOG_CHANNEL_ID content false; Print (SummaryFailed e)]).

(** Newest first, as the platform keeps a channel's messages. *)
Definition newest_first (l : list Message) : Prop :=
  StronglySorted (fun a b => msg_created_at b <= msg_created_at a) l.

Definition oldest_first (l : list Message) : Prop :=
  StronglySorted (fun a b => msg_created_at a <= msg_created_at b) l.

(** [needle] occurs in [hay], as Python's [in] on strings decides. *)
Definition occurs_in (needle hay : string) : Prop :=
  exists pre suf, chars hay = pre ++ chars needle ++ suf.

(** The URLs that [on_ready] goes on with, line 129. *)
Definition is_platform_url (url : string) : bool :=
  negb (String.eqb (get_platform url) "unknown").

(** The replies that the platform accepted, among some events. *)
Fixpoint accepted_replies (l : list Event) : Z :=
  match l with
  | [] => 0
  | Reply _ _ _ true :: tl => 1 + accepted_replies tl
  | _ :: tl => accepted_replies tl
  end.

Definition not_accepted (e : Event) : Prop :=
  match e with Reply _ _ _ true => False | _ => True end.

Definition no_event (e : Event) : Prop := False.

(** [tally channel_id d m]: whatever [m] shows, the counts it returns are
    those of [d] with the count of [channel_id] raised by the number of
    replies accepted meanwhile. *)
Definition tally (channel_id : Z) (d : Dict) (m : M Dict) : Prop :=
  forall w r w', m w = (r, w') ->
    exists delta,
      events w' = events w ++ delta /\
      forall d', r = Ret d' ->
        (forall k, k <> channel_id -> dict_get k d' = dict_get k d) /\
        (forall v, dict_get channel_id d = Some v ->
                   dict_get channel_id d' = Some (v + accepted_replies delta)).
(** * Properties *)

(** ** Stripping and removing characters *)

Section StripFacts.
Context {A : Type}.
Variable space : A -> bool.

Lemma lstrip_split l :
  exists pre, l = pre ++ lstrip space l /\ Forall (fun c => space c = true) pre.
Proof.
  induction l as [|c tl [pre [E F]]]; simpl.
  - exists []. split; [reflexivity | constructor].
  - destruct (space c) eqn:Hc.
    + exists (c :: pre). split; [simpl; congruence | constructor; assumption].
    + exists []. split; [reflexivity | constructor].
Qed.

Lemma lstrip_head l c : head (lstrip space l) = Some c -> space c = false.
Proof.
  induction l as [|d tl IH]; simpl; [discriminate |].
  destruct (space d) eqn:Hd; [exact IH |].
  simpl. intros [= <-]. exact Hd.
Qed.

Lemma lstrip_fix l :
  (forall c, head l = Some c -> space c = false) -> lstrip space l = l.
Proof.
  destruct l as [|d tl]; simpl; [reflexivity |].
  intros H. rewrite (H d eq_refl). reflexivity.
Qed.

Lemma last_rev_head (l : list A) : last l = head (rev l).
Proof.
  induction l as [|d tl IH] using rev_ind; [reflexivity |].
  rewrite last_snoc, rev_app_distr. reflexivity.
Qed.

Lemma rstrip_split l :
  exists suf, l = rstrip space l ++ suf /\ Forall (fun c => space c = true) suf.
Proof.
  unfold rstrip. destruct (lstrip_split (rev l)) as [pre [E F]].
  exists (rev pre). split.
  - rewrite <- rev_app_distr, <- E, rev_involutive. reflexivity.
  - apply Forall_rev. exact F.
Qed.

Lemma rstrip_last l c : last (rstrip space l) = Some c -> space c = false.
Proof.
  unfold rstrip. rewrite last_rev_head, rev_involutive. apply lstrip_head.
Qed.

Lemma rstrip_fix l :
  (forall c, last l = Some c -> space c = false) -> rstrip space l = l.
Proof.
  intros H. unfold rstrip. rewrite lstrip_fix.
  - apply rev_involutive.
  - intros c Hc. apply H. rewrite last_rev_head. exact Hc.
Qed.

Lemma last_suffix (pre l : list A) c :
  last l = Some c -> last (pre ++ l) = Some c.
Proof.
  destruct l as [|d tl] using rev_ind; [discriminate |].
  rewrite app_assoc, !last_snoc. tauto.
Qed.

Lemma strip_stripped l : stripped space (strip space l).
Proof.
  unfold strip. split.
  - apply lstrip_head.
  - intros c Hc. apply (rstrip_last l).
    destruct (lstrip_split (rstrip space l)) as [pre [E _]].
    rewrite E. apply last_suffix. exact Hc.
Qed.

Lemma strip_fix l : stripped space l -> strip space l = l.
Proof.
  intros [Hh Hl]. unfold strip.
  rewrite (rstrip_fix l Hl). apply lstrip_fix, Hh.
Qed.

Lemma strip_split l :
  exists pre suf,
    l = pre ++ strip space l ++ suf /\
    Forall (fun c => space c = true) pre /\
    Forall (fun c => space c = true) suf.
Proof.
  destruct (rstrip_split l) as [suf [E1 F1]].
  destruct (lstrip_split (rstrip space l)) as [pre [E2 F2]].
  exists pre, suf. unfold strip. split; [| split; assumption].
  rewrite app_assoc, <- E2. exact E1.
Qed.

Lemma strip_Forall (P : A -> Prop) l : Forall P l -> Forall P (strip space l).
Proof.
  intros H. destruct (strip_split l) as [pre [suf [E _]]].
  rewrite E in H. apply Forall_app in H as [_ H].
  apply Forall_app in H as [H _]. exact H.
Qed.
End StripFacts.

Section RemoveFacts.
Context {A : Type}.
Variable bad : A -> bool.

Lemma remove_clean l : Forall (fun c => bad c = false) (remove bad l).
Proof.
  unfold remove. apply List.Forall_forall. intros c Hc.
  apply List.filter_In in Hc as [_ Hc]. destruct (bad c); [discriminate | reflexivity].
Qed.

Lemma remove_fix l : Forall (fun c => bad c = false) l -> remove bad l = l.
Proof.
  unfold remove. induction 1 as [|c tl Hc _ IH]; simpl; [reflexivity |].
  rewrite Hc. simpl. congruence.
Qed.
End RemoveFacts.

Example findall_two :
  findall_urls "see https://youtu.be/a and http://x.org/b, ok http:// end" =
  ["https://youtu.be/a"; "http://x.org/b,"].
Proof. reflexivity. Qed.

Example sanitize_example :
  sanitize_filename "  a/b: c?.mp4 " = "ab c.mp4".
Proof. reflexivity. Qed.

Example platform_examples :
  get_platform "https://www.instagram.com/reel/xyz" = "instagram" /\
  get_platform "https://youtu.be/abc" = "youtube" /\
  get_platform "https://old.reddit.com/r/x" = "reddit" /\
  get_platform "https://example.org" = "unknown".
Proof. repeat split. Qed.


(** ** [sanitize_filename] *)

Lemma chars_text (l : list ascii) : chars (text l) = l.
Proof. apply list_ascii_of_string_of_list_ascii. Qed.

Lemma text_chars (s : string) : text (chars s) = s.
Proof. apply string_of_list_ascii_of_string. Qed.

Lemma sanitize_filename_chars (s : string) :
  chars (sanitize_filename s) = strip is_space (remove is_unsafe (chars s)).
Proof. unfold sanitize_filename. apply chars_text. Qed.

Lemma existsb_code_In (c : ascii) (codes : list N) :
  existsb (N.eqb (N_of_ascii c)) codes = true <-> In (N_of_ascii c) codes.
Proof.
  rewrite existsb_exists. split.
  - intros [n [Hin E]]. apply N.eqb_eq in E. rewrite E. exact Hin.
  - intros Hin. exists (N_of_ascii c). split; [exact Hin | apply N.eqb_refl].
Qed.

(** The white space of [is_space], code by code. *)
Lemma is_space_codes (c : ascii) :
  is_space c =
  existsb (N.eqb (N_of_ascii c)) [9; 10; 11; 12; 13; 28; 29; 30; 31; 32; 133; 160]%N.
Proof. destruct c as [[] [] [] [] [] [] [] []]; reflexivity. Qed.

Lemma Forall_is_space (l : list ascii) :
  Forall (fun c => is_space c = true) l ->
  Forall (fun c => In (N_of_ascii c)
                     [9; 10; 11; 12; 13; 28; 29; 30; 31; 32; 133; 160]%N) l.
Proof.
  apply List.Forall_impl. intros c Hc. rewrite is_space_codes in Hc.
  apply existsb_code_In. exact Hc.
Qed.

(** C8. For every text, what [sanitize_filename] yields holds none of the
    nine characters with the codes 92 (backslash), 47 (slash), 42 (star),
    63 (question mark), 58 (colon), 34 (double quote), 60 (less-than),
    62 (greater-than) and 124 (bar), and neither starts nor ends with a
    white-space character (codes 9 to 13, 28 to 32, 133 and 160); it is the
    input without those nine characters, less a run of white space on the
    left and one on the right; and sanitizing the result again changes
    nothing. *)
Theorem sanitize_filename_removes_strips_idempotent (s : string) :
  let unsafe (c : ascii) :=
    In (N_of_ascii c) [92; 47; 42; 63; 58; 34; 60; 62; 124]%N in
  let white (c : ascii) :=
    In (N_of_ascii c) [9; 10; 11; 12; 13; 28; 29; 30; 31; 32; 133; 160]%N in
  let out := list_ascii_of_string (sanitize_filename s) in
  Forall (fun c => ~ unsafe c) out /\
  (forall c, head out = Some c -> ~ white c) /\
  (forall c, last out = Some c -> ~ white c) /\
  (exists pre suf,
      List.filter
        (fun c => negb (existsb (N.eqb (N_of_ascii c))
                          [92; 47; 42; 63; 58; 34; 60; 62; 124]%N))
        (list_ascii_of_string s) = pre ++ out ++ suf /\
      Forall white pre /\ Forall white suf) /\
  sanitize_filename (sanitize_filename s) = sanitize_filename s.
Proof.
  intros unsafe white out.
  assert (Hclean : Forall (fun c => is_unsafe c = false)
                     (chars (sanitize_filename s))).
  { rewrite sanitize_filename_chars. apply strip_Forall, remove_clean. }
  assert (Hstrip : stripped is_space (chars (sanitize_filename s))).
  { rewrite sanitize_filename_chars. apply strip_stripped. }
  assert (Hwhite : forall c, is_space c = false -> ~ white c).
  { intros c Hc Hw. apply existsb_code_In in Hw.
    rewrite <- is_space_codes in Hw. congruence. }
  split; [| split; [| split; [| split]]].
  - revert Hclean. apply List.Forall_impl. intros c Hc Hu.
    apply existsb_code_In in Hu. unfold is_unsafe in Hc. congruence.
  - intros c Hc. apply Hwhite, (proj1 Hstrip), Hc.
  - intros c Hc. apply Hwhite, (proj2 Hstrip), Hc.
  - destruct (strip_split is_space (remove is_unsafe (chars s)))
      as [pre [suf [E [Hpre Hsuf]]]].
    exists pre, suf. split; [| split; apply Forall_is_space; assumption].
    unfold out. change (list_ascii_of_string (sanitize_filename s))
      with (chars (sanitize_filename s)).
    rewrite sanitize_filename_chars. exact E.
  - unfold sanitize_filename at 1.
    rewrite (remove_fix _ _ Hclean), (strip_fix _ _ Hstrip).
    apply text_chars.
Qed.

Example sanitize_unsafe_only :
  sanitize_filename (text (map ascii_of_nat [92; 47; 42; 63; 58; 34; 60; 62; 124]%nat)) = "".
Proof. reflexivity. Qed.

(** ** [compress_video] *)

Lemma getsize_present path size w :
  files w !! path = Some size -> getsize path w = (Ret size, w).
Proof. intros H. unfold getsize. rewrite H. reflexivity. Qed.

Lemma getsize_missing path w :
  files w !! path = None -> getsize path w = (Raise FileNotFoundError, w).
Proof. intros H. unfold getsize. rewrite H. reflexivity. Qed.

Lemma Qle_bool_false (x y : Q) : ~ (x <= y)%Q -> Qle_bool x y = false.
Proof.
  intros H. destruct (Qle_bool x y) eqn:E; [| reflexivity].
  apply Qle_bool_iff in E. contradiction.
Qed.

Lemma Qeq_bool_false (x y : Q) : ~ (x == y)%Q -> Qeq_bool x y = false.
Proof.
  intros H. destruct (Qeq_bool x y) eqn:E; [| reflexivity].
  apply Qeq_bool_iff in E. contradiction.
Qed.

Lemma length_append (a b : string) :
  String.length (a +:+ b) = (String.length a + String.length b)%nat.
Proof. induction a as [|c a IH]; simpl; [reflexivity | rewrite IH; reflexivity]. Qed.

Lemma compressed_path_differs (path : string) : "compressed_" +:+ path <> path.
Proof.
  intros E. apply (f_equal String.length) in E.
  rewrite length_append in E. simpl in E. lia.
Qed.

(** The re-encoding stage writes at most its output path. *)
Lemma reencode_files env input output max_mb w r w' :
  reencode env input output max_mb w = (r, w') ->
  forall p, p <> output -> files w' !! p = files w !! p.
Proof.
  unfold reencode, bind, next_call, ret, raise, py_div, emit, leave_file. simpl.
  intros H p Hp.
  destruct (VideoFileClip env (tick w) input) as [d|]; [| inversion H; reflexivity].
  destruct (Qeq_bool d 0); [inversion H; reflexivity |].
  simpl in H.
  destruct (write_videofile env (S (tick w)) _) as [raised [n|]]; simpl in H;
    destruct raised; inversion H; simpl;
    rewrite ?lookup_insert_ne by congruence; reflexivity.
Qed.

(** At or below the maximum, the input path comes back and nothing has
    happened: no file, no call, no line. *)
Lemma compress_video_within_limit env path max_mb w size :
  files w !! path = Some size ->
  (size_in_mb size <= max_mb)%Q ->
  compress_video env path max_mb w = (Ret path, w).
Proof.
  intros Hsize Hle. unfold compress_video, bind.
  rewrite (getsize_present _ _ _ Hsize).
  apply Qle_bool_iff in Hle. rewrite Hle. reflexivity.
Qed.

(** C7. For a file on disk above the maximum, whatever makes the
    re-encoding stage raise, [compress_video] raises nothing and returns
    the input path; the input file is still on disk with its size, and the
    reply that follows is attempted with that file. *)
Theorem compress_video_fallback env path max_mb w size e w1 :
  files w !! path = Some size ->
  ~ (size_in_mb size <= max_mb)%Q ->
  reencode env path ("compressed_" +:+ path) max_mb w = (Raise e, w1) ->
  exists w',
    compress_video env path max_mb w = (Ret path, w') /\
    events w' = events w1 ++ [Print (CompressionFailed e)] /\
    files w' !! path = Some size /\
    forall channel_id display m url counts,
    exists ok r w'',
      reply_and_count env channel_id display m url path counts w' = (r, w'') /\
      (exists c, r = Ret c) /\
      In (Reply (msg_id m)
            ("sent on " +:+ strftime env (msg_created_at m) +:+ " by "
             +:+ user_tag (msg_author m)) path ok) (events w'').
Proof.
  intros Hsize Hgt Hre.
  assert (Hkeep : files w1 !! path = Some size).
  { rewrite (reencode_files _ _ _ _ _ _ _ Hre); [exact Hsize |].
    intros E. symmetry in E. exact (compressed_path_differs _ E). }
  eexists. split; [| split; [| split]].
  - unfold compress_video, bind. rewrite (getsize_present _ _ _ Hsize).
    rewrite (Qle_bool_false _ _ Hgt). unfold try_except. rewrite Hre.
    unfold print, emit, ret. simpl. reflexivity.
  - reflexivity.
  - exact Hkeep.
  - intros channel_id display m url counts.
    unfold reply_and_count, try_except, reply, bind, path_exists. simpl.
    rewrite Hkeep. rewrite bool_decide_eq_true_2 by eauto.
    unfold next_call, emit, print, dict_incr, bind, ret, raise. simpl.
    exists (reply_accepted env (tick w1) (msg_id m)).
    destruct (reply_accepted env (tick w1) (msg_id m)); simpl;
      [destruct (dict_get channel_id counts); simpl |];
      do 2 eexists; (split; [reflexivity | split; [eexists; reflexivity |]]);
      simpl; rewrite ?in_app_iff; simpl; tauto.
Qed.

(** With its input on disk, [compress_video] returns, whatever the
    libraries do. *)
Lemma compress_video_returns env path max_mb w :
  is_Some (files w !! path) ->
  exists p w', compress_video env path max_mb w = (Ret p, w').
Proof.
  intros [size Hsize]. unfold compress_video, bind.
  rewrite (getsize_present _ _ _ Hsize).
  destruct (Qle_bool (size_in_mb size) max_mb); [unfold ret; eauto |].
  unfold try_except.
  destruct (reencode env path ("compressed_" +:+ path) max_mb w) as [[p|e] w1];
    [eauto |].
  unfold print, emit, bind, ret. simpl. eauto.
Qed.

(** C10. [compress_video] returns a path exactly when the input path names
    a file on disk: with the file present it returns, whatever the
    libraries do; with the file absent the size probe raises before any
    handler is in place, and nothing else happens. *)
Theorem compress_video_needs_file env path max_mb w :
  (is_Some (files w !! path) ->
   exists p w', compress_video env path max_mb w = (Ret p, w')) /\
  (files w !! path = None ->
   compress_video env path max_mb w = (Raise FileNotFoundError, w)).
Proof.
  split.
  - apply compress_video_returns.
  - intros Hnone. unfold compress_video, bind.
    rewrite (getsize_missing _ _ Hnone). reflexivity.
Qed.

Example compress_video_bitrate :
  events (snd (compress_video (Sample.calm [] 0) "v.mp4" (8 # 1)
                 (start (Sample.disk_with "v.mp4" 9000000)))) =
  [Encode {| enc_input := "v.mp4"; enc_output := "compressed_v.mp4";
             enc_bitrate := "6553k"; enc_codec := "libx264";
             enc_audio_codec := "aac" |}].
Proof. vm_compute. reflexivity. Qed.

(** An encoder that cannot open the clip. *)
Lemma compress_video_fallback_witness :
  exists w',
    compress_video
      (Sample.with_encoder (fun _ _ => None) (fun _ _ => (false, None))
         (Sample.calm [] 0))
      "v.mp4" (8 # 1) (start (Sample.disk_with "v.mp4" 9000000)) =
    (Ret "v.mp4", w').
Proof.
  destruct (compress_video_fallback
              (Sample.with_encoder (fun _ _ => None) (fun _ _ => (false, None))
                 (Sample.calm [] 0))
              "v.mp4" (8 # 1) (start (Sample.disk_with "v.mp4" 9000000))
              9000000%N EncodeError
              {| files := Sample.disk_with "v.mp4" 9000000; tick := 1;
                 events := [] |}
              eq_refl ltac:(unfold Qle; simpl; lia) eq_refl)
    as [w' [H _]].
  exists w'. exact H.
Defined.

Example compress_video_zero_duration :
  fst (compress_video
         (Sample.with_encoder (fun _ _ => Some 0%Q) (fun _ _ => (false, None))
            (Sample.calm [] 0))
         "v.mp4" (8 # 1) (start (Sample.disk_with "v.mp4" 9000000))) =
  Ret "v.mp4".
Proof. vm_compute. reflexivity. Qed.

Lemma compress_video_needs_file_witness :
  (exists p w',
      compress_video (Sample.calm [] 0) "v.mp4" (8 # 1)
        (start (Sample.disk_with "v.mp4" 9000000)) = (Ret p, w')) /\
  compress_video (Sample.calm [] 0) "v.mp4" (8 # 1) (start ∅) =
    (Raise FileNotFoundError, start ∅).
Proof.
  split.
  - apply (proj1 (compress_video_needs_file (Sample.calm [] 0) "v.mp4" (8 # 1)
                    (start (Sample.disk_with "v.mp4" 9000000)))).
    exists 9000000%N. reflexivity.
  - apply (proj2 (compress_video_needs_file (Sample.calm [] 0) "v.mp4" (8 # 1)
                    (start ∅))).
    reflexivity.
Defined.

(** ** Reasoning about computations *)

Section Rules.
Context (R : World -> World -> Prop) {HR : PreOrder R}.

Lemma sat_ret {A} (Q : A -> Prop) a : Q a -> sat R Q (ret a).
Proof.
  intros H w r w' [= <- <-]. split; [reflexivity |].
  intros b [= <-]. exact H.
Qed.

Lemma sat_raise {A} (Q : A -> Prop) e : sat R Q (raise e).
Proof.
  intros w r w' [= <- <-]. split; [reflexivity | discriminate].
Qed.

Lemma sat_bind {A B} (Q1 : A -> Prop) (Q2 : B -> Prop) m k :
  sat R Q1 m -> (forall a, Q1 a -> sat R Q2 (k a)) -> sat R Q2 (bind m k).
Proof.
  intros Hm Hk w r w'. unfold bind.
  destruct (m w) as [[a|e] w1] eqn:E; intros H.
  - destruct (Hm _ _ _ E) as [R1 Qa].
    destruct (Hk a (Qa a eq_refl) _ _ _ H) as [R2 Qb].
    split; [etransitivity; eassumption | exact Qb].
  - inversion H; subst. destruct (Hm _ _ _ E) as [R1 _].
    split; [exact R1 | discriminate].
Qed.

Lemma sat_try {A} (Q : A -> Prop) m h :
  sat R Q m -> (forall e, sat R Q (h e)) -> sat R Q (try_except m h).
Proof.
  intros Hm Hh w r w'. unfold try_except.
  destruct (m w) as [[a|e] w1] eqn:E; intros H.
  - inversion H; subst. exact (Hm _ _ _ E).
  - destruct (Hm _ _ _ E) as [R1 _]. destruct (Hh e _ _ _ H) as [R2 Qb].
    split; [etransitivity; eassumption | exact Qb].
Qed.

Lemma sat_weaken {A} (Q Q' : A -> Prop) m :
  sat R Q m -> (forall a, Q a -> Q' a) -> sat R Q' m.
Proof.
  intros Hm HQ w r w' H. destruct (Hm _ _ _ H) as [R1 Qa]. split; [exact R1 |].
  intros a Ha. apply HQ, Qa, Ha.
Qed.

Lemma sat_for_each {A S} (I : S -> Prop) (body : S -> A -> M S) l :
  (forall s x, I s -> sat R I (body s x)) ->
  forall s, I s -> sat R I (for_each body l s).
Proof.
  intros Hbody. induction l as [|x tl IH]; intros s Hs; simpl.
  - apply sat_ret. exact Hs.
  - apply (sat_bind I); [apply Hbody; exact Hs | exact IH].
Qed.

Lemma sat_if {A} (Q : A -> Prop) (b : bool) m1 m2 :
  sat R Q m1 -> sat R Q m2 -> sat R Q (if b then m1 else m2).
Proof. destruct b; tauto. Qed.

(** Steps that leave everything [R] looks at alone. *)
Lemma sat_quiet {A} (Q : A -> Prop) (m : M A) :
  (forall w r w', m w = (r, w') -> R w w') ->
  (forall w a w', m w = (Ret a, w') -> Q a) ->
  sat R Q m.
Proof.
  intros H1 H2 w r w' H. split; [exact (H1 _ _ _ H) |].
  intros a ->. exact (H2 _ _ _ H).
Qed.
End Rules.



Lemma returns_try {A} (m : M A) h :
  (forall e, returns (h e)) -> returns (try_except m h).
Proof.
  intros Hh w. unfold try_except. destruct (m w) as [[a|e] w1]; [eauto |].
  apply Hh.
Qed.




Lemma returns_next_call : returns next_call.
Proof. intros w. unfold next_call. eauto. Qed.


(** *** What a computation lets an observer see *)

#[local] Instance extends_preorder P : PreOrder (extends P).
Proof.
  split.
  - intros w. exists []. rewrite app_nil_r. split; [reflexivity | constructor].
  - intros w1 w2 w3 [d1 [E1 F1]] [d2 [E2 F2]]. exists (d1 ++ d2). split.
    + rewrite E2, E1, app_assoc. reflexivity.
    + apply Forall_app. split; assumption.
Qed.

Lemma extends_same P w w' : events w' = events w -> extends P w w'.
Proof.
  intros E. exists []. rewrite app_nil_r. split; [exact E | constructor].
Qed.

Lemma extends_one P e w w' : P e -> events w' = events w ++ [e] -> extends P w w'.
Proof. intros H E. exists [e]. split; [exact E | repeat constructor; exact H]. Qed.

(** *** The dictionary of counts *)

Lemma dict_set_keys k v v' d :
  dict_get k d = Some v -> map fst (dict_set k v' d) = map fst d.
Proof.
  induction d as [|[k' x] tl IH]; simpl; [discriminate |].
  destruct (Z.eqb_spec k k') as [->|Hne]; simpl; [reflexivity |].
  intros H. rewrite (IH H). reflexivity.
Qed.

Lemma dict_set_fresh k v d :
  ~ In k (map fst d) -> dict_set k v d = d ++ [(k, v)].
Proof.
  induction d as [|[k' x] tl IH]; simpl; [reflexivity |].
  intros H. destruct (Z.eqb_spec k k') as [->|Hne]; [tauto |].
  rewrite IH by tauto. reflexivity.
Qed.

Lemma dict_get_set_same k v d : dict_get k (dict_set k v d) = Some v.
Proof.
  induction d as [|[k' x] tl IH]; simpl.
  - rewrite Z.eqb_refl. reflexivity.
  - destruct (Z.eqb_spec k k') as [->|Hne]; simpl.
    + rewrite Z.eqb_refl. reflexivity.
    + destruct (Z.eqb_spec k k'); [contradiction | exact IH].
Qed.

Lemma dict_get_set_other k k' v d :
  k <> k' -> dict_get k (dict_set k' v d) = dict_get k d.
Proof.
  intros Hne. induction d as [|[k2 x] tl IH]; simpl.
  - destruct (Z.eqb_spec k k'); [contradiction | reflexivity].
  - destruct (Z.eqb_spec k' k2) as [->|Hne2]; simpl.
    + destruct (Z.eqb_spec k k2); [contradiction | reflexivity].
    + destruct (Z.eqb_spec k k2); [reflexivity | exact IH].
Qed.

Lemma init_counts_from acc ids :
  List.NoDup (map fst acc ++ ids) ->
  fold_left (fun d channel_id => dict_set channel_id 0 d) ids acc =
  acc ++ map (fun channel_id => (channel_id, 0)) ids.
Proof.
  revert acc. induction ids as [|k tl IH]; intros acc H; simpl.
  - rewrite app_nil_r. reflexivity.
  - assert (Hk : ~ In k (map fst acc)).
    { apply List.NoDup_remove_2 in H. rewrite in_app_iff in H. tauto. }
    rewrite (dict_set_fresh _ _ _ Hk), IH.
    + rewrite <- app_assoc. reflexivity.
    + rewrite map_app. simpl. rewrite <- app_assoc. exact H.
Qed.

(** Without repeated identifiers, the dictionary of line 98 lists the
    channels in the configured order, each with count zero. *)
Lemma init_counts_NoDup ids :
  List.NoDup ids -> init_counts ids = map (fun channel_id => (channel_id, 0)) ids.
Proof. intros H. unfold init_counts. rewrite init_counts_from; [reflexivity | exact H]. Qed.

Lemma init_counts_keys ids : List.NoDup ids -> map fst (init_counts ids) = ids.
Proof.
  intros H. rewrite (init_counts_NoDup _ H), map_map. simpl. apply map_id.
Qed.

(** Every configured channel starts at zero, repeated or not. *)
Lemma init_counts_zero ids k :
  In k ids -> dict_get k (init_counts ids) = Some 0.
Proof.
  unfold init_counts.
  assert (G : forall acc,
             (In k ids \/ dict_get k acc = Some 0) ->
             (forall k', dict_get k' acc = None \/ dict_get k' acc = Some 0) ->
             dict_get k (fold_left (fun d c => dict_set c 0 d) ids acc) = Some 0).
  { induction ids as [|c tl IH]; intros acc Hk Hacc; simpl.
    - destruct Hk as [[]|Hk]. exact Hk.
    - apply IH.
      + destruct (Z.eq_dec k c) as [->|Hne].
        * right. apply dict_get_set_same.
        * destruct Hk as [[Hk|Hk]|Hk]; [congruence | tauto |].
          right. rewrite dict_get_set_other by exact Hne. exact Hk.
      + intros k'. destruct (Z.eq_dec k' c) as [->|Hne].
        * right. apply dict_get_set_same.
        * rewrite dict_get_set_other by exact Hne. apply Hacc. }
  intros Hk. apply G; [tauto | intros k'; left; reflexivity].
Qed.

(** *** Events of the program's parts *)

Ltac silent :=
  apply sat_quiet;
  [ intros w r w' H; apply extends_same;
    repeat (let E := fresh in
            match type of H with
            | context [match ?x with _ => _ end] => destruct x eqn:E
            end);
    inversion H; reflexivity
  | trivial ].

Section Observed.
Variable env : Env.
Variable P : Event -> Prop.
Hypothesis P_print : forall l, P (Print l).
Hypothesis P_encode : forall req, P (Encode req).
Hypothesis P_reply : forall m c f ok, P (Reply m c f ok).

Local Notation "'quiet' m" := (sat (extends P) (fun _ => True) m)
  (at level 10, m at level 9).

Lemma sat_emit e : P e -> quiet (emit e).
Proof.
  intros He. apply sat_quiet; [| trivial].
  intros w r w' [= <- <-]. apply (extends_one P e); [exact He | reflexivity].
Qed.

Lemma sat_print l : quiet (print l).
Proof. apply sat_emit, P_print. Qed.

Lemma sat_next_call : quiet next_call.
Proof. unfold next_call. silent. Qed.

Lemma sat_getsize path : quiet (getsize path).
Proof. unfold getsize. silent. Qed.

Lemma sat_path_exists path : quiet (path_exists path).
Proof. unfold path_exists. silent. Qed.

Lemma sat_os_remove path : quiet (os_remove path).
Proof. unfold os_remove. silent. Qed.

Lemma sat_leave_file path written : quiet (leave_file path written).
Proof. unfold leave_file. silent. Qed.

Ltac chain :=
  repeat first
    [ apply sat_print | apply sat_next_call | apply sat_getsize
    | apply sat_path_exists | apply sat_os_remove | apply sat_leave_file
    | apply sat_emit; solve [auto]
    | apply (sat_ret _); solve [trivial]
    | apply (sat_raise _)
    | apply (sat_bind _ (fun _ => True)); [| intros ? _]
    | apply (sat_try _); [| intros ?]
    | apply (sat_if _)
    | match goal with
      | |- sat _ _ (match ?x with _ => _ end) => destruct x
      end ].

Lemma sat_video_filename info : quiet (video_filename info).
Proof. unfold video_filename. chain. Qed.

Lemma sat_download_video url : quiet (download_video env url).
Proof. unfold download_video. chain; try apply sat_video_filename. Qed.

Lemma sat_py_div a b : quiet (py_div a b).
Proof. unfold py_div. chain. Qed.

Lemma sat_reencode i o max_mb : quiet (reencode env i o max_mb).
Proof. unfold reencode. chain; try apply sat_py_div. Qed.

Lemma sat_compress_video path max_mb : quiet (compress_video env path max_mb).
Proof. unfold compress_video. chain; try apply sat_reencode. Qed.

Lemma sat_reply m content path : quiet (reply env m content path).
Proof. unfold reply. chain. Qed.

Lemma sat_clean_up f p : quiet (clean_up f p).
Proof. unfold clean_up. chain. Qed.

Lemma sat_dict_incr k d :
  sat (extends P) (fun d' => map fst d' = map fst d) (dict_incr k d).
Proof.
  unfold dict_incr. destruct (dict_get k d) as [v|] eqn:E.
  - apply (sat_ret _). apply (dict_set_keys _ _ _ _ E).
  - apply (sat_raise _).
Qed.

Lemma sat_reply_and_count channel_id display m url path d :
  sat (extends P) (fun d' => map fst d' = map fst d)
    (reply_and_count env channel_id display m url path d).
Proof.
  unfold reply_and_count. apply (sat_try _).
  - apply (sat_bind _ (fun _ => True)); [apply sat_reply | intros _ _].
    apply (sat_bind _ (fun _ => True)); [apply sat_print | intros _ _].
    apply sat_dict_incr.
  - intros e. apply (sat_bind _ (fun _ => True)); [apply sat_print | intros _ _].
    apply (sat_ret _). reflexivity.
Qed.

Lemma sat_deliver channel_id display m url d f :
  sat (extends P) (fun d' => map fst d' = map fst d)
    (deliver env channel_id display m url d f).
Proof.
  unfold deliver.
  apply (sat_bind _ (fun _ => True)); [apply sat_getsize | intros size _].
  apply (sat_bind _ (fun _ => True)).
  { apply (sat_if _); [apply sat_compress_video | apply (sat_ret _); trivial]. }
  intros p _.
  apply (sat_bind _ (fun d' => map fst d' = map fst d));
    [apply sat_reply_and_count | intros d' Hd'].
  apply (sat_bind _ (fun _ => True)); [apply sat_clean_up | intros _ _].
  apply (sat_ret _). exact Hd'.
Qed.

Lemma sat_process_url channel_id display m d url :
  sat (extends P) (fun d' => map fst d' = map fst d)
    (process_url env channel_id display m d url).
Proof.
  unfold process_url.
  apply (sat_if _); [| apply (sat_ret _); reflexivity].
  apply (sat_bind _ (fun _ => True)); [apply sat_print | intros _ _].
  apply (sat_bind _ (fun _ => True)); [apply sat_download_video | intros dl _].
  apply (sat_if _); [| apply (sat_ret _); reflexivity].
  apply sat_deliver.
Qed.

Lemma sat_process_message channel_id display d m :
  sat (extends P) (fun d' => map fst d' = map fst d)
    (process_message env channel_id display d m).
Proof.
  unfold process_message.
  apply (sat_for_each _ (fun d' => map fst d' = map fst d)); [| reflexivity].
  intros s url Hs.
  eapply sat_weaken; [apply sat_process_url |].
  intros a Ha. simpl in Ha. congruence.
Qed.

Lemma sat_channel_history channel_id : quiet (channel_history env channel_id).
Proof. unfold channel_history. chain. Qed.

Lemma sat_resume_cursor channel_id : quiet (resume_cursor env channel_id).
Proof.
  unfold resume_cursor, history_limit. chain; try apply sat_channel_history.
Qed.

Lemma sat_history_after channel_id t : quiet (history_after env channel_id t).
Proof. unfold history_after. chain; try apply sat_channel_history. Qed.

(** The messages of one channel, lines 124-152. *)
Lemma sat_messages channel_id display msgs d :
  sat (extends P) (fun d' => map fst d' = map fst d)
    (for_each (process_message env channel_id display) msgs d).
Proof.
  apply (sat_for_each _ (fun d' => map fst d' = map fst d)); [| reflexivity].
  intros s m Hs.
  eapply sat_weaken; [apply sat_process_message |].
  intros a Ha. simpl in Ha. congruence.
Qed.
End Observed.

(** ** The pause between channels *)

Lemma not_sleep_work :
  (forall l, not_sleep (Print l)) /\
  (forall req, not_sleep (Encode req)) /\
  (forall m c f ok, not_sleep (Reply m c f ok)).
Proof. repeat split. Qed.

(** The work on one accessible channel, lines 109-152, never pauses. *)
Lemma channel_work_no_sleep env channel_id display counts w r w' :
  (last_time <- resume_cursor env channel_id ;;
   new_messages <- history_after env channel_id last_time ;;
   for_each (process_message env channel_id display) new_messages counts) w
  = (r, w') ->
  extends not_sleep w w'.
Proof.
  intros H.
  destruct not_sleep_work as [Hp [He Hr]].
  refine (proj1 (sat_bind (extends not_sleep) (fun _ => True) (fun _ => True)
                   _ _ _ _ w r w' H)).
  - apply sat_resume_cursor; assumption.
  - intros t _.
    apply (sat_bind _ (fun _ => True)).
    + apply sat_history_after; assumption.
    + intros msgs _. eapply sat_weaken; [apply sat_messages; assumption | trivial].
Qed.

Lemma process_channel_step env total counts idx channel_id w r w' :
  process_channel env total counts (idx, channel_id) w = (r, w') ->
  (forall a, r = Ret a ->
     exists seg, channel_segment env total idx channel_id seg /\
                 events w' = events w ++ seg) /\
  (forall e, r = Raise e -> extends not_sleep w w').
Proof.
  unfold process_channel, channel_segment.
  destruct (get_channel env channel_id) as [channel|].
  - intros H.
    set (display := channel_display channel channel_id) in *.
    pose proof (channel_work_no_sleep env channel_id display counts w) as Hwork.
    unfold bind in H, Hwork.
    destruct (resume_cursor env channel_id w) as [[t|e1] w1] eqn:E1.
    + destruct (history_after env channel_id t w1) as [[msgs|e2] w2] eqn:E2.
      * destruct (for_each (process_message env channel_id display) msgs counts w2)
          as [[c|e3] w3] eqn:E3.
        -- destruct (Hwork _ _ eq_refl) as [body [Eb Fb]].
           unfold print, sleep, emit, ret in H. simpl in H.
           split; [| intros e ->; destruct (idx <? total - 1); discriminate].
           intros a ->. eexists. split.
           ++ exists body. split; [exact Fb | reflexivity].
           ++ destruct (idx <? total - 1); inversion H; subst; simpl;
                rewrite Eb, <- ?app_assoc; reflexivity.
        -- inversion H; subst. split; [discriminate |].
           intros _ _. exact (Hwork _ _ eq_refl).
      * inversion H; subst. split; [discriminate |].
        intros _ _. exact (Hwork _ _ eq_refl).
    + inversion H; subst. split; [discriminate |].
      intros _ _. exact (Hwork _ _ eq_refl).
  - unfold bind, print, emit, ret. simpl. intros [= <- <-]. split.
    + intros a _. eexists. split; reflexivity.
    + discriminate.
Qed.

Lemma for_each_cons {A S} (body : S -> A -> M S) x tl s w :
  for_each body (x :: tl) s w =
  match body s x w with
  | (Ret s', w1) => for_each body tl s' w1
  | (Raise e, w1) => (Raise e, w1)
  end.
Proof. reflexivity. Qed.

(** The loop over the channels, turn by turn. *)
Lemma channel_loop_segments env total ids :
  forall i counts w r w',
  for_each (process_channel env total) (enumerate_from i ids) counts w = (r, w') ->
  exists segs rest,
    Forall2 (fun item seg => channel_segment env total (fst item) (snd item) seg)
      (firstn (length segs) (enumerate_from i ids)) segs /\
    events w' = events w ++ concat segs ++ rest /\
    Forall not_sleep rest /\
    (forall a, r = Ret a -> length segs = length ids /\ rest = []).
Proof.
  induction ids as [|channel_id tl IH]; intros i counts w r w' H.
  - inversion H; subst. exists [], []. simpl. rewrite app_nil_r.
    repeat split; constructor.
  - change (enumerate_from i (channel_id :: tl))
      with ((i, channel_id) :: enumerate_from (i + 1) tl) in *.
    rewrite for_each_cons in H.
    destruct (process_channel env total counts (i, channel_id) w)
      as [[c|e] w1] eqn:E1.
    + destruct (process_channel_step _ _ _ _ _ _ _ _ E1) as [Hret _].
      destruct (Hret c eq_refl) as [seg [Hseg Eseg]].
      destruct (IH _ _ _ _ _ H) as [segs [rest [HF [Ev [Hrest Hlen]]]]].
      exists (seg :: segs), rest. simpl. repeat split.
      * constructor; [exact Hseg | exact HF].
      * rewrite Ev, Eseg, <- !app_assoc. reflexivity.
      * exact Hrest.
      * destruct (Hlen a H0) as [-> _]. reflexivity.
      * destruct (Hlen a H0) as [_ ->]. reflexivity.
    + inversion H; subst.
      destruct (process_channel_step _ _ _ _ _ _ _ _ E1) as [_ Hraise].
      destruct (Hraise e eq_refl) as [d [Ed Fd]].
      exists [], d. simpl. repeat split; try assumption; try constructor;
        discriminate.
Qed.

(** The summary step always completes, with one of three outcomes. *)
Lemma send_summary_cases env counts w :
  match get_channel env LOG_CHANNEL_ID with
  | None =>
      send_summary env counts w =
      (Ret tt, {| files := files w; tick := tick w;
                  events := events w ++ [Print LogChannelNotFound] |})
  | Some _ =>
      let content :=
        if String.eqb (summary_text counts) "" then "No messages processed."
        else summary_text counts in
      send_summary env counts w =
      (Ret tt,
       {| files := files w; tick := S (tick w);
          events := events w ++
            [Send LOG_CHANNEL_ID content (send_accepted env (tick w) LOG_CHANNEL_ID);
             Print (if send_accepted env (tick w) LOG_CHANNEL_ID
                    then SentSummary else SummaryFailed HTTPException)] |})
  end.
Proof.
  unfold send_summary. destruct (get_channel env LOG_CHANNEL_ID); [| reflexivity].
  unfold try_except, send, bind, next_call, emit, print, ret, raise. simpl.
  destruct (send_accepted env (tick w) LOG_CHANNEL_ID);
    unfold emit, print, ret, raise; simpl;
    rewrite <- ?app_assoc; reflexivity.
Qed.

Lemma send_summary_step env counts w :
  exists step w',
    send_summary env counts w = (Ret tt, w') /\
    events w' = events w ++ step /\
    summary_step step /\ Forall not_sleep step.
Proof.
  pose proof (send_summary_cases env counts w) as H. unfold summary_step.
  destruct (get_channel env LOG_CHANNEL_ID).
  - simpl in H. rewrite H.
    destruct (send_accepted env (tick w) LOG_CHANNEL_ID);
      do 2 eexists; (split; [reflexivity | split; [reflexivity | split]]);
      eauto; repeat constructor.
  - rewrite H. do 2 eexists.
    split; [reflexivity | split; [reflexivity | split]]; eauto.
    repeat constructor.
Qed.

(** C4, as the code has it. In every run, what is observed is the login
    line, then one segment per completed turn of the channel loop, then a
    rest without any pause. The segment of an accessible channel ends
    with the 60-second pause exactly when the channel is not the last
    configured one, and holds no other pause; the segment of a channel
    that is not found is its single log line, without a pause. A run that
    returns has completed every turn. *)
Theorem cooldown_between_channels env ids w r w' :
  on_ready_for env ids w = (r, w') ->
  exists segs rest,
    Forall2
      (fun item seg =>
         channel_segment env (Z.of_nat (length ids)) (fst item) (snd item) seg)
      (firstn (length segs) (enumerate_from 0 ids)) segs /\
    events w' = events w ++ [Print LoggedIn] ++ concat segs ++ rest /\
    Forall not_sleep rest /\
    (r = Ret tt -> length segs = length ids).
Proof.
  unfold on_ready_for. intros H. unfold bind at 1 in H.
  unfold print, emit in H. simpl in H. unfold bind at 1 in H.
  match type of H with
  | context [for_each ?b ?l ?s ?w0] =>
      destruct (for_each b l s w0) as [[c|e] w1] eqn:E
  end.
  - destruct (channel_loop_segments _ _ _ _ _ _ _ _ E)
      as [segs [rest [HF [Ev [_ Hlen]]]]].
    destruct (Hlen c eq_refl) as [Hl ->]. rewrite app_nil_r in Ev.
    destruct (send_summary_step env c w1) as [step [w2 [Es [Ev2 [_ Fs]]]]].
    unfold bind in H. rewrite Es in H. unfold emit in H. inversion H; subst.
    exists segs, (step ++ [Close]). simpl. repeat split.
    + exact HF.
    + rewrite Ev2, Ev. simpl. rewrite <- !app_assoc. reflexivity.
    + apply Forall_app. split; [exact Fs | repeat constructor].
    + intros _. exact Hl.
  - inversion H; subst.
    destruct (channel_loop_segments _ _ _ _ _ _ _ _ E)
      as [segs [rest [HF [Ev [Fr _]]]]].
    exists segs, rest. repeat split; try assumption.
    + rewrite Ev. simpl. rewrite <- !app_assoc. reflexivity.
    + discriminate.
Qed.

(** One accessible channel followed by seven that are not found: a single
    pause, after the first. *)
Lemma cooldown_between_channels_witness :
  exists segs rest,
    Forall2
      (fun item seg =>
         channel_segment (Sample.calm [] 0) 8 (fst item) (snd item) seg)
      (firstn (length segs) (enumerate_from 0 CHANNEL_IDS)) segs /\
    events (snd (on_ready (Sample.calm [] 0) (start ∅))) =
      [] ++ [Print LoggedIn] ++ concat segs ++ rest /\
    Forall not_sleep rest /\
    (fst (on_ready (Sample.calm [] 0) (start ∅)) = Ret tt ->
     length segs = length CHANNEL_IDS).
Proof.
  apply (cooldown_between_channels (Sample.calm [] 0) CHANNEL_IDS (start ∅)
           (fst (on_ready (Sample.calm [] 0) (start ∅)))
           (snd (on_ready (Sample.calm [] 0) (start ∅)))).
  vm_compute. reflexivity.
Defined.

(** C4 fails as stated: with the first configured channel not found (here
    none of the eight is), the run goes from one channel to the next
    without any pause. *)
Lemma no_pause_after_missing_channel :
  let env := Sample.with_channels (fun _ => None) (Sample.calm [] 0) in
  nth_error CHANNEL_IDS 0 = Some Sample.first_channel /\
  get_channel env Sample.first_channel = None /\
  on_ready env (start ∅) =
    (Ret tt,
     {| files := ∅; tick := 0;
        events :=
          [Print LoggedIn;
           Print (ChannelNotFound 911164219238514688);
           Print (ChannelNotFound 911164241216667678);
           Print (ChannelNotFound 1005713269094350938);
           Print (ChannelNotFound 912017250909847623);
           Print (ChannelNotFound 912017322993139752);
           Print (ChannelNotFound 912017388042592286);
           Print (ChannelNotFound 912017417142689872);
           Print (ChannelNotFound 1218954199916871691);
           Print LogChannelNotFound; Close] |}).
Proof. vm_compute. repeat split. Qed.

(** ** The summary *)

Lemma not_send_work :
  (forall l, not_send (Print l)) /\
  (forall req, not_send (Encode req)) /\
  (forall m c f ok, not_send (Reply m c f ok)).
Proof. repeat split. Qed.

(** One turn of the channel loop sends nothing to the log channel and
    keeps the keys of the dictionary. *)
Lemma sat_process_channel env total d item :
  sat (extends not_send) (fun d' => map fst d' = map fst d)
    (process_channel env total d item).
Proof.
  destruct not_send_work as [Hp [He Hr]].
  destruct item as [idx channel_id]. unfold process_channel.
  destruct (get_channel env channel_id) as [channel|].
  - apply (sat_bind _ (fun _ => True));
      [apply sat_resume_cursor; assumption | intros t _].
    apply (sat_bind _ (fun _ => True));
      [apply sat_history_after; assumption | intros msgs _].
    apply (sat_bind _ (fun d' => map fst d' = map fst d));
      [apply sat_messages; assumption | intros d' Hd'].
    apply (sat_bind _ (fun _ => True)); [apply sat_print; assumption | intros _ _].
    apply (sat_bind _ (fun _ => True)).
    + apply (sat_if _); [| apply (sat_ret _); trivial].
      apply (sat_bind _ (fun _ => True)); [apply sat_print; assumption | intros _ _].
      apply sat_emit. exact I.
    + intros _ _. apply (sat_ret _). exact Hd'.
  - apply (sat_bind _ (fun _ => True)); [apply sat_print; assumption | intros _ _].
    apply (sat_ret _). reflexivity.
Qed.

Lemma sat_channel_loop env total items d :
  sat (extends not_send) (fun d' => map fst d' = map fst d)
    (for_each (process_channel env total) items d).
Proof.
  apply (sat_for_each _ (fun d' => map fst d' = map fst d)); [| reflexivity].
  intros s item Hs. eapply sat_weaken; [apply sat_process_channel |].
  intros a Ha. simpl in Ha. congruence.
Qed.

Lemma summary_text_nonempty counts :
  counts <> [] -> String.eqb (summary_text counts) "" = false.
Proof.
  destruct counts as [|e tl]; [congruence |]. intros _.
  unfold summary_text. destruct tl; reflexivity.
Qed.

Lemma append_assoc (a b c : string) : (a +:+ b) +:+ c = a +:+ (b +:+ c).
Proof.
  induction a as [|x a IH]; [reflexivity |].
  change (String x ((a +:+ b) +:+ c) = String x (a +:+ (b +:+ c))).
  rewrite IH. reflexivity.
Qed.

Lemma summary_text_two a b :
  summary_text [(a, 2); (b, 0)] =
  "total 2 msg converted in <#" +:+ pretty a +:+ ">" +:+
  String "010" ("total 0 msg converted in <#" +:+ pretty b +:+ ">").
Proof.
  unfold summary_text, summary_line. simpl.
  change (pretty 2) with "2". change (pretty 0) with "0". simpl.
  rewrite !append_assoc. reflexivity.
Qed.

(** The message to the log channel, for any list of channels. *)
Lemma summary_of_run env ids w w' log_channel :
  List.NoDup ids ->
  ids <> [] ->
  get_channel env LOG_CHANNEL_ID = Some log_channel ->
  on_ready_for env ids w = (Ret tt, w') ->
  exists counts before ok,
    map fst counts = ids /\
    Forall not_send before /\
    events w' =
      events w ++ before ++
      [Send LOG_CHANNEL_ID
         (String.concat (String "010" EmptyString) (map summary_line counts)) ok;
       Print (if ok then SentSummary else SummaryFailed HTTPException);
       Close].
Proof.
  intros Hnd Hne Hlog H.
  unfold on_ready_for in H. unfold bind at 1 in H.
  unfold print, emit in H. simpl in H. unfold bind at 1 in H.
  match type of H with
  | context [for_each ?b ?l ?s ?w0] =>
      destruct (for_each b l s w0) as [[c|e] w1] eqn:E
  end; [| discriminate].
  destruct (sat_channel_loop _ _ _ _ _ _ _ E) as [[d [Ed Fd]] Hkeys].
  specialize (Hkeys c eq_refl). rewrite (init_counts_keys _ Hnd) in Hkeys.
  pose proof (send_summary_cases env c w1) as Hs. rewrite Hlog in Hs.
  simpl in Hs. rewrite summary_text_nonempty in Hs.
  2:{ intros ->. simpl in Hkeys. congruence. }
  unfold bind in H. rewrite Hs in H. unfold emit in H. simpl in H.
  inversion H; subst. simpl in Ed.
  exists c, (Print LoggedIn :: d), (send_accepted env (tick w1) LOG_CHANNEL_ID).
  split; [reflexivity | split].
  - constructor; [exact I | exact Fd].
  - rewrite Ed. simpl. rewrite <- !app_assoc. reflexivity.
Qed.

Lemma CHANNEL_IDS_NoDup : List.NoDup CHANNEL_IDS.
Proof. unfold CHANNEL_IDS. repeat constructor; simpl; intuition lia. Qed.

(** C9. Given the counts with which the loop over the configured
    channels ends, and the log channel accessible: the counts list the
    configured channels in the configured order; nothing was sent to any
    channel so far; and the run ends by sending to the log channel one
    message, the lines [total <count> msg converted in <#channel-id>] of
    these very counts, one per channel in that order, joined by line
    breaks, then logs whether it was accepted and closes the connection.
    For the counts 2 and 0 of two channels A and B, in that order, the
    message is the two lines of the specification. *)
Theorem summary_one_line_per_channel env w counts w1 log_channel :
  get_channel env LOG_CHANNEL_ID = Some log_channel ->
  for_each (process_channel env (Z.of_nat (length CHANNEL_IDS)))
    (enumerate_from 0 CHANNEL_IDS) (init_counts CHANNEL_IDS)
    {| files := files w; tick := tick w;
       events := events w ++ [Print LoggedIn] |} = (Ret counts, w1) ->
  let line (entry : Z * Z) :=
    "total " +:+ pretty (snd entry) +:+ " msg converted in <#"
    +:+ pretty (fst entry) +:+ ">" in
  map fst counts = CHANNEL_IDS /\
  (exists before,
      events w1 = events w ++ before /\ Forall not_send before) /\
  on_ready env w =
    (Ret tt,
     {| files := files w1; tick := S (tick w1);
        events := events w1 ++
          [Send LOG_CHANNEL_ID
             (String.concat (String "010" EmptyString) (map line counts))
             (send_accepted env (tick w1) LOG_CHANNEL_ID);
           Print (if send_accepted env (tick w1) LOG_CHANNEL_ID
                  then SentSummary else SummaryFailed HTTPException);
           Close] |}) /\
  (forall a b w0,
      send_summary env [(a, 2); (b, 0)] w0 =
      (Ret tt,
       {| files := files w0; tick := S (tick w0);
          events := events w0 ++
            [Send LOG_CHANNEL_ID
               ("total 2 msg converted in <#" +:+ pretty a +:+ ">" +:+
                String "010"
                  ("total 0 msg converted in <#" +:+ pretty b +:+ ">"))
               (send_accepted env (tick w0) LOG_CHANNEL_ID);
             Print (if send_accepted env (tick w0) LOG_CHANNEL_ID
                    then SentSummary else SummaryFailed HTTPException)] |})).
Proof.
  intros Hlog Hloop line.
  destruct (sat_channel_loop _ _ _ _ _ _ _ Hloop) as [[d [Ed Fd]] Hkeys].
  specialize (Hkeys counts eq_refl).
  rewrite (init_counts_keys _ CHANNEL_IDS_NoDup) in Hkeys.
  split; [exact Hkeys | split; [| split]].
  - exists (Print LoggedIn :: d). simpl in Ed. split.
    + rewrite Ed, <- app_assoc. reflexivity.
    + constructor; [exact I | exact Fd].
  - pose proof (send_summary_cases env counts w1) as Hs. rewrite Hlog in Hs.
    simpl in Hs. rewrite summary_text_nonempty in Hs.
    2:{ intros ->. discriminate Hkeys. }
    unfold on_ready, on_ready_for. unfold bind at 1.
    unfold print, emit. unfold bind at 1. rewrite Hloop.
    unfold bind. rewrite Hs. unfold emit. simpl.
    rewrite <- app_assoc. reflexivity.
  - intros a b w0.
    pose proof (send_summary_cases env [(a, 2); (b, 0)] w0) as Hs.
    rewrite Hlog in Hs. cbv zeta in Hs.
    rewrite summary_text_nonempty in Hs by discriminate.
    rewrite summary_text_two in Hs. exact Hs.
Qed.

(** One message with one link in the first channel: one line per
    configured channel, the first with count 1. *)
Lemma summary_one_line_per_channel_witness :
  exists w1,
    on_ready (Sample.calm [Sample.one_link] 1000) (start ∅) =
    (Ret tt,
     {| files := files w1; tick := S (tick w1);
        events := events w1 ++
          [Send LOG_CHANNEL_ID
             (String.concat (String "010" EmptyString)
                ["total 1 msg converted in <#911164219238514688>";
                 "total 0 msg converted in <#911164241216667678>";
                 "total 0 msg converted in <#1005713269094350938>";
                 "total 0 msg converted in <#912017250909847623>";
                 "total 0 msg converted in <#912017322993139752>";
                 "total 0 msg converted in <#912017388042592286>";
                 "total 0 msg converted in <#912017417142689872>";
                 "total 0 msg converted in <#1218954199916871691>"])
             true;
           Print SentSummary;
           Close] |}).
Proof.
  exists (snd (for_each
                 (process_channel (Sample.calm [Sample.one_link] 1000)
                    (Z.of_nat (length CHANNEL_IDS)))
                 (enumerate_from 0 CHANNEL_IDS) (init_counts CHANNEL_IDS)
                 {| files := ∅; tick := 0; events := [Print LoggedIn] |})).
  refine (eq_trans
    (proj1 (proj2 (proj2
       (summary_one_line_per_channel (Sample.calm [Sample.one_link] 1000)
          (start ∅)
          [(911164219238514688, 1); (911164241216667678, 0);
           (1005713269094350938, 0); (912017250909847623, 0);
           (912017322993139752, 0); (912017388042592286, 0);
           (912017417142689872, 0); (1218954199916871691, 0)]
          _ {| channel_name := Some "general" |} eq_refl _)))) _).
  - vm_compute. reflexivity.
  - vm_compute. reflexivity.
Defined.

(** Two channels, with counts 2 and 0: one line each, in order. *)
Example summary_of_two_channels_run :
  let env :=
    Sample.with_channels
      (fun c => Some {| channel_name := None |})
      (Sample.with_history
         (fun _ c => Some (if c =? 101 then [Sample.another_link; Sample.one_link] else []))
         (Sample.calm [] 1000)) in
  last (events (snd (on_ready_for env [101; 102] (start ∅)))) = Some Close /\
  In (Send LOG_CHANNEL_ID
        (String.concat (String "010" EmptyString)
           ["total 2 msg converted in <#101>"; "total 0 msg converted in <#102>"])
        true)
     (events (snd (on_ready_for env [101; 102] (start ∅)))).
Proof. vm_compute. split; [reflexivity | tauto]. Qed.

Example summary_two_channels :
  summary_text [(101, 2); (102, 0)] =
  String.concat (String "010" EmptyString)
    ["total 2 msg converted in <#101>"; "total 0 msg converted in <#102>"].
Proof. vm_compute. reflexivity. Qed.

(** ** The resume cursor *)

Section Sorting.
Context {A : Type}.
Variable R : A -> A -> Prop.

Lemma In_firstn n (l : list A) x : In x (firstn n l) -> In x l.
Proof.
  revert l. induction n as [|n IH]; intros [|a tl]; simpl; try tauto.
  intros [->|H]; [tauto | right; apply IH, H].
Qed.

Lemma StronglySorted_firstn n l :
  StronglySorted R l -> StronglySorted R (firstn n l).
Proof.
  revert l. induction n as [|n IH]; intros l H; simpl; [constructor |].
  destruct l as [|a tl]; [constructor |].
  apply StronglySorted_inv in H as [Htl Ha].
  constructor; [apply IH; exact Htl |].
  rewrite List.Forall_forall in *. intros x Hx. apply Ha.
  eapply In_firstn. exact Hx.
Qed.

Lemma StronglySorted_filter (p : A -> bool) l :
  StronglySorted R l -> StronglySorted R (List.filter p l).
Proof.
  induction 1 as [|a tl Htl IH Ha]; simpl; [constructor |].
  destruct (p a); [| exact IH].
  constructor; [exact IH |].
  rewrite List.Forall_forall in *. intros x Hx.
  apply List.filter_In in Hx as [Hx _]. apply Ha, Hx.
Qed.

Lemma StronglySorted_snoc (S : A -> A -> Prop) l a :
  StronglySorted S l -> Forall (fun b => S b a) l -> StronglySorted S (l ++ [a]).
Proof.
  induction 1 as [|b tl Htl IH Hb]; intros Hall; simpl.
  - repeat constructor.
  - apply Forall_cons_iff in Hall as [Hba Hall].
    constructor; [apply IH; exact Hall |].
    apply Forall_app. split; [exact Hb | repeat constructor; exact Hba].
Qed.

Lemma StronglySorted_rev l :
  StronglySorted R l -> StronglySorted (fun a b => R b a) (rev l).
Proof.
  induction 1 as [|a tl Htl IH Ha]; simpl; [constructor |].
  apply (StronglySorted_snoc (fun a b => R b a)); [exact IH |].
  rewrite List.Forall_forall in *. intros x Hx. apply Ha.
  apply in_rev. exact Hx.
Qed.
End Sorting.

(** In a list kept newest first, the first message found by a test is the
    most recent of those that pass it. *)
Lemma find_newest (f : Message -> bool) l x :
  newest_first l ->
  List.find f l = Some x ->
  In x l /\ f x = true /\
  forall y, In y l -> f y = true -> msg_created_at y <= msg_created_at x.
Proof.
  unfold newest_first. induction 1 as [|a tl Htl IH Ha]; simpl; [discriminate |].
  destruct (f a) eqn:Hfa.
  - intros [= <-]. repeat split; [tauto | exact Hfa |].
    intros y [<-|Hy] _; [lia |].
    rewrite List.Forall_forall in Ha. apply Ha, Hy.
  - intros Hfind. destruct (IH Hfind) as [Hin [Hfx Hmax]].
    repeat split; [tauto | exact Hfx |].
    intros y [<-|Hy] Hfy; [congruence | apply Hmax; assumption].
Qed.

Lemma timedelta_three_days : timedelta_days 3 = 259200000000.
Proof. reflexivity. Qed.

Lemma timedelta_one_second : timedelta_seconds 1 = 1000000.
Proof. reflexivity. Qed.

(** *** The arithmetic of [datetime] *)

Lemma datetime_add_inside t delta w :
  -62135596800000000 <= t + delta <= 253402300799999999 ->
  datetime_add t delta w = (Ret (t + delta), w).
Proof.
  intros H. unfold datetime_add, datetime_min, datetime_max.
  destruct (Z.leb_spec (-62135596800000000) (t + delta)); [| lia].
  destruct (Z.leb_spec (t + delta) 253402300799999999); [| lia].
  reflexivity.
Qed.

Lemma datetime_add_outside t delta w :
  ~ (-62135596800000000 <= t + delta <= 253402300799999999) ->
  datetime_add t delta w = (Raise OverflowError, w).
Proof.
  intros H. unfold datetime_add, datetime_min, datetime_max.
  destruct (Z.leb_spec (-62135596800000000) (t + delta));
    destruct (Z.leb_spec (t + delta) 253402300799999999);
    try reflexivity.
  lia.
Qed.

Lemma py_timedelta_days_inside n w :
  -999999999 <= n <= 999999999 ->
  py_timedelta_days n w = (Ret (n * 86400 * 1000000), w).
Proof.
  intros H. unfold py_timedelta_days.
  destruct (Z.leb_spec (-999999999) n); [| lia].
  destruct (Z.leb_spec n 999999999); [| lia].
  reflexivity.
Qed.

Lemma py_timedelta_days_outside n w :
  ~ (-999999999 <= n <= 999999999) ->
  py_timedelta_days n w = (Raise OverflowError, w).
Proof.
  intros H. unfold py_timedelta_days.
  destruct (Z.leb_spec (-999999999) n); destruct (Z.leb_spec n 999999999);
    try reflexivity.
  lia.
Qed.

(** Lines 109-119, step by step. *)
Lemma resume_cursor_run env channel_id w :
  resume_cursor env channel_id w =
  match history env (tick w) channel_id with
  | None =>
      (Raise HTTPException,
       {| files := files w; tick := S (tick w); events := events w |})
  | Some msgs =>
      match List.find (is_self env) (firstn 500 msgs) with
      | Some last_bot_msg =>
          datetime_add (msg_created_at last_bot_msg) 1000000
            {| files := files w; tick := S (tick w); events := events w |}
      | None =>
          (delta <- py_timedelta_days (LOOKBACK_DAYS env) ;;
           datetime_add (utcnow env (S (tick w))) (- delta))
            {| files := files w; tick := S (S (tick w)); events := events w |}
      end
  end.
Proof.
  unfold resume_cursor, history_limit, channel_history.
  unfold bind at 1 2 3, next_call, ret, raise. simpl.
  destruct (history env (tick w) channel_id) as [msgs|]; [| reflexivity].
  destruct (List.find (is_self env) (firstn 500 msgs)); reflexivity.
Qed.

(** Line 122, step by step. *)
Lemma history_after_run env channel_id cursor w :
  history_after env channel_id cursor w =
  match history env (tick w) channel_id with
  | None =>
      (Raise HTTPException,
       {| files := files w; tick := S (tick w); events := events w |})
  | Some msgs1 =>
      (Ret (match history_default_limit env with
            | Some limit =>
                firstn limit
                  (rev (List.filter (fun m => cursor <? msg_created_at m) msgs1))
            | None =>
                rev (List.filter (fun m => cursor <? msg_created_at m) msgs1)
            end),
       {| files := files w; tick := S (tick w); events := events w |})
  end.
Proof.
  unfold history_after, channel_history, bind, next_call, ret, raise. simpl.
  destruct (history env (tick w) channel_id); reflexivity.
Qed.

(** One turn of the loop, from the cursor on. *)
Lemma process_channel_from_cursor env total counts idx channel_id channel w r w1 :
  get_channel env channel_id = Some channel ->
  resume_cursor env channel_id w = (r, w1) ->
  process_channel env total counts (idx, channel_id) w =
  match r with
  | Raise e => (Raise e, w1)
  | Ret last_time =>
      (new_messages <- history_after env channel_id last_time ;;
       counts' <- for_each
                    (process_message env channel_id
                       (channel_display channel channel_id))
                    new_messages counts ;;
       print (ProcessingComplete (channel_display channel channel_id)) ;;
       (if idx <? total - 1 then print Waiting ;; sleep 60 else ret tt) ;;
       ret counts') w1
  end.
Proof.
  intros Hch Hcur. unfold process_channel. rewrite Hch.
  unfold bind at 1. rewrite Hcur. destruct r; reflexivity.
Qed.

(** C5, as the code has it. For an accessible channel whose history can be
    read, newest first. When one of the 500 most recent messages is the
    bot's own, the cursor is the creation time of the most recent such
    message plus one second; when none is, it is the current time minus
    [LOOKBACK_DAYS] days, which are 3 when the variable is not set. That
    holds when the times involved are ones a [datetime] can hold (from
    year 1 to year 9999, in microseconds from 1970) and the days are at
    most 999999999 either way; if not, the turn ends there with an
    [OverflowError].  The turn then fetches once, after the very cursor it
    computed: the messages it goes through were all created strictly after
    the cursor and come oldest first; they are the first of those, up to
    the number the library hands out when no limit is named (all of them
    when it has no such number). *)
Theorem resume_cursor_and_fetch env total counts idx channel_id channel w msgs :
  get_channel env channel_id = Some channel ->
  history env (tick w) channel_id = Some msgs ->
  let own (m : Message) := user_id (msg_author m) =? user_id (client_user env) in
  let recent := firstn 500 msgs in
  let days := match getenv_LOOKBACK_DAYS env with Some d => d | None => 3 end in
  let representable (t : Z) :=
    -62135596800000000 <= t <= 253402300799999999 in
  let display :=
    match channel_name channel with
    | Some name => name +:+ " (" +:+ pretty channel_id +:+ ")"
    | None => pretty channel_id
    end in
  let at_call (k : nat) :=
    {| files := files w; tick := k; events := events w |} in
  let turn := process_channel env total counts (idx, channel_id) in
  let fetch_after (cursor : Z) (k : nat) :=
    resume_cursor env channel_id w = (Ret cursor, at_call k) /\
    (history env k channel_id = None ->
     turn w = (Raise HTTPException, at_call (S k))) /\
    (forall msgs1, history env k channel_id = Some msgs1 ->
       let later :=
         rev (List.filter (fun m => cursor <? msg_created_at m) msgs1) in
       let new_messages :=
         match history_default_limit env with
         | Some limit => firstn limit later
         | None => later
         end in
       history_after env channel_id cursor (at_call k) =
         (Ret new_messages, at_call (S k)) /\
       (forall m, In m new_messages -> In m msgs1 /\ cursor < msg_created_at m) /\
       (history_default_limit env = None ->
        forall m, In m msgs1 -> cursor < msg_created_at m -> In m new_messages) /\
       (newest_first msgs1 -> oldest_first new_messages) /\
       turn w =
         (counts' <- for_each (process_message env channel_id display)
                       new_messages counts ;;
          print (ProcessingComplete display) ;;
          (if idx <? total - 1 then print Waiting ;; sleep 60 else ret tt) ;;
          ret counts') (at_call (S k))) in
  (forall last, List.find own recent = Some last ->
     In last recent /\ own last = true /\
     (newest_first msgs ->
      forall m, In m recent -> own m = true ->
                msg_created_at m <= msg_created_at last) /\
     (representable (msg_created_at last + 1000000) ->
      fetch_after (msg_created_at last + 1000000) (S (tick w))) /\
     (~ representable (msg_created_at last + 1000000) ->
      turn w = (Raise OverflowError, at_call (S (tick w))))) /\
  (List.find own recent = None ->
     (forall m, In m recent -> own m = false) /\
     (-999999999 <= days <= 999999999 ->
      representable (utcnow env (S (tick w)) - days * 86400 * 1000000) ->
      fetch_after (utcnow env (S (tick w)) - days * 86400 * 1000000)
        (S (S (tick w)))) /\
     (~ (-999999999 <= days <= 999999999 /\
         representable (utcnow env (S (tick w)) - days * 86400 * 1000000)) ->
      turn w = (Raise OverflowError, at_call (S (S (tick w)))))).
Proof.
  intros Hch Hhist own recent days representable display at_call turn fetch_after.
  pose proof (resume_cursor_run env channel_id w) as Hrun.
  rewrite Hhist in Hrun.
  change (List.find (is_self env) (firstn 500 msgs))
    with (List.find own recent) in Hrun.
  change (LOOKBACK_DAYS env) with days in Hrun.
  assert (Hfetch : forall cursor k,
            resume_cursor env channel_id w = (Ret cursor, at_call k) ->
            fetch_after cursor k).
  { intros cursor k Hcur. split; [exact Hcur |].
    pose proof (process_channel_from_cursor env total counts idx channel_id
                  channel w _ _ Hch Hcur) as Hturn.
    cbv beta iota in Hturn. unfold bind at 1 in Hturn.
    rewrite history_after_run in Hturn. simpl tick in Hturn.
    split.
    - intros Hnone. unfold turn. rewrite Hturn, Hnone. reflexivity.
    - intros msgs1 Hsome later new_messages.
      assert (Hsub : forall m, In m new_messages -> In m later).
      { intros m. unfold new_messages.
        destruct (history_default_limit env); [apply (In_firstn (fun _ _ => True)) | tauto]. }
      assert (Hlater : forall m,
                In m later <-> In m msgs1 /\ cursor < msg_created_at m).
      { intros m. unfold later.
        rewrite <- in_rev, List.filter_In, Z.ltb_lt. reflexivity. }
      split; [| split; [| split; [| split]]].
      + rewrite history_after_run. simpl tick. rewrite Hsome. reflexivity.
      + intros m Hm. apply Hlater, Hsub, Hm.
      + intros Hall m Hm Hc. unfold new_messages. rewrite Hall.
        apply Hlater. tauto.
      + intros Hsorted.
        assert (Hs : oldest_first later).
        { unfold oldest_first, later.
          apply (StronglySorted_rev _ _ (StronglySorted_filter _ _ _ Hsorted)). }
        unfold new_messages. destruct (history_default_limit env);
          [apply StronglySorted_firstn |]; exact Hs.
      + unfold turn. rewrite Hturn, Hsome. reflexivity. }
  assert (Hraise : forall w1,
            resume_cursor env channel_id w = (Raise OverflowError, w1) ->
            turn w = (Raise OverflowError, w1)).
  { intros w1 Hcur.
    exact (process_channel_from_cursor env total counts idx channel_id
             channel w _ _ Hch Hcur). }
  split.
  - intros last Hfind. rewrite Hfind in Hrun.
    pose proof (List.find_some _ _ Hfind) as [Hin Hown].
    split; [exact Hin | split; [exact Hown | split; [| split]]].
    + intros Hsorted.
      assert (Hrecent : newest_first recent)
        by (apply StronglySorted_firstn; exact Hsorted).
      apply (find_newest _ _ _ Hrecent Hfind).
    + intros Hrep. apply Hfetch. rewrite Hrun.
      apply datetime_add_inside. exact Hrep.
    + intros Hout. apply Hraise. rewrite Hrun.
      apply datetime_add_outside. exact Hout.
  - intros Hfind. rewrite Hfind in Hrun.
    split; [intros m Hm; apply (List.find_none _ _ Hfind m Hm) | split].
    + intros Hdays Hrep. apply Hfetch. rewrite Hrun. unfold bind.
      rewrite (py_timedelta_days_inside _ _ Hdays).
      replace (utcnow env (S (tick w)) - days * 86400 * 1000000)
        with (utcnow env (S (tick w)) + - (days * 86400 * 1000000)) by lia.
      apply datetime_add_inside.
      unfold representable in Hrep. lia.
    + intros Hout. apply Hraise. rewrite Hrun. unfold bind.
      destruct (Z_le_dec (-999999999) days) as [H1|H1];
        [destruct (Z_le_dec days 999999999) as [H2|H2] |].
      * rewrite (py_timedelta_days_inside _ _ (conj H1 H2)).
        apply datetime_add_outside. unfold representable in Hout. lia.
      * rewrite py_timedelta_days_outside by lia. reflexivity.
      * rewrite py_timedelta_days_outside by lia. reflexivity.
Qed.

(** A channel where the bot has spoken, and one where it has not. *)
Lemma resume_cursor_and_fetch_witness :
  (let env := Sample.calm Sample.timeline 0 in
   resume_cursor env Sample.first_channel (start ∅) =
     (Ret 5000000, {| files := ∅; tick := 1; events := [] |}) /\
   history_after env Sample.first_channel 5000000
     {| files := ∅; tick := 1; events := [] |} =
     (Ret [Sample.two_links; Sample.one_link],
      {| files := ∅; tick := 2; events := [] |})) /\
  (let env := Sample.calm [Sample.one_link; Sample.old_note] 0 in
   resume_cursor env Sample.first_channel (start ∅) =
     (Ret (100000000000 - 259200000000),
      {| files := ∅; tick := 2; events := [] |})).
Proof.
  split.
  - destruct (resume_cursor_and_fetch (Sample.calm Sample.timeline 0)
                8 (init_counts CHANNEL_IDS) 0 Sample.first_channel
                {| channel_name := Some "general" |} (start ∅) Sample.timeline
                eq_refl eq_refl) as [Hown _].
    destruct (Hown Sample.bot_note eq_refl) as [_ [_ [_ [Hin _]]]].
    destruct (Hin ltac:(simpl; lia)) as [Hcur [_ Hfetch]].
    destruct (Hfetch Sample.timeline eq_refl) as [Hafter _].
    split; [exact Hcur | exact Hafter].
  - destruct (resume_cursor_and_fetch
                (Sample.calm [Sample.one_link; Sample.old_note] 0)
                8 (init_counts CHANNEL_IDS) 0 Sample.first_channel
                {| channel_name := Some "general" |} (start ∅)
                [Sample.one_link; Sample.old_note]
                eq_refl eq_refl) as [_ Hnone].
    destruct (Hnone eq_refl) as [_ [Hin _]].
    destruct (Hin ltac:(simpl; lia) ltac:(simpl; lia)) as [Hcur _].
    exact Hcur.
Defined.

(** C5 fails as stated. With [LOOKBACK_DAYS] set to 800000 and no message
    of the bot in the channel, the current time minus the lookback window
    is before year 1: line 119 raises [OverflowError], no cursor is
    computed, nothing is fetched, and the run ends there (the clock shows
    3 November 2026). *)
Lemma lookback_before_year_one :
  let env :=
    Sample.with_lookback (Some 800000) 1793664000000000
      (Sample.calm [Sample.one_link; Sample.old_note] 0) in
  1793664000000000 - 800000 * 86400 * 1000000 < -62135596800000000 /\
  resume_cursor env Sample.first_channel (start ∅) =
    (Raise OverflowError, {| files := ∅; tick := 2; events := [] |}) /\
  on_ready env (start ∅) =
    (Raise OverflowError,
     {| files := ∅; tick := 2; events := [Print LoggedIn] |}).
Proof. split; [lia | split; vm_compute; reflexivity]. Qed.

Example resume_cursor_after_bot_message :
  let env := Sample.calm Sample.timeline 0 in
  fst (resume_cursor env Sample.first_channel (start ∅)) = Ret 5000000 /\
  fst (history_after env Sample.first_channel 5000000 (start ∅)) =
    Ret [Sample.two_links; Sample.one_link].
Proof. split; reflexivity. Qed.

Example resume_cursor_lookback :
  let env := Sample.calm [Sample.one_link; Sample.old_note] 0 in
  fst (resume_cursor env Sample.first_channel (start ∅)) =
    Ret (100000000000 - 259200000000).
Proof. reflexivity. Qed.

(** The library's own limit: of 120 new messages, the turn goes through
    the 100 oldest. *)
Example fetch_takes_the_oldest_hundred :
  let crowd :=
    map (fun i => {| msg_id := Z.of_nat i; msg_author := Sample.alice;
                     msg_content := "hello";
                     msg_created_at := 9000000 - Z.of_nat i |})
      (seq 0 120) in
  let env := Sample.calm crowd 0 in
  match fst (history_after env Sample.first_channel 0 (start ∅)) with
  | Ret new_messages =>
      length new_messages = 100%nat /\
      map msg_id new_messages = map Z.of_nat (rev (seq 20 100))
  | Raise _ => False
  end.
Proof. vm_compute. split; reflexivity. Qed.

(** ** Files on disk *)

Lemma chars_append (a b : string) : chars (a +:+ b) = chars a ++ chars b.
Proof.
  unfold chars. induction a as [|x a IH]; [reflexivity |].
  change (x :: list_ascii_of_string (a +:+ b) =
          x :: (list_ascii_of_string a ++ list_ascii_of_string b)).
  rewrite IH. reflexivity.
Qed.

Lemma remove_append {A} (bad : A -> bool) (l1 l2 : list A) :
  remove bad (l1 ++ l2) = remove bad l1 ++ remove bad l2.
Proof. unfold remove. apply List.filter_app. Qed.

Lemma strip_keeps_something {A} (space : A -> bool) (l : list A) :
  Exists (fun c => space c = false) l -> strip space l <> [].
Proof.
  intros Hex Hnil.
  destruct (strip_split space l) as [pre [suf [E [Fp Fs]]]].
  rewrite Hnil in E. simpl in E. rewrite E in Hex.
  apply Exists_exists in Hex as [c [Hin Hc]].
  assert (Hall : Forall (fun c => space c = true) (pre ++ suf))
    by (apply Forall_app; split; assumption).
  rewrite List.Forall_forall in Hall.
  rewrite list_elem_of_In in Hin. rewrite (Hall c Hin) in Hc. discriminate.
Qed.

(** A name that ends in [.mp4] is not sanitized away. *)
Lemma sanitize_filename_mp4 (s : string) : sanitize_filename (s +:+ ".mp4") <> "".
Proof.
  intros E. apply (f_equal chars) in E.
  rewrite sanitize_filename_chars, chars_append, remove_append in E.
  revert E. apply strip_keeps_something.
  apply Exists_exists. exists "4"%char. split; [| reflexivity].
  rewrite list_elem_of_In. apply in_or_app. right. simpl. tauto.
Qed.

Lemma video_filename_run info w r w' :
  video_filename info w = (r, w') ->
  w' = w /\ forall f u, r = Ret (f, u) -> f <> "".
Proof.
  unfold video_filename, bind, ret, raise.
  destruct (info_title info) as [[|s]|]; intros [= <- <-];
    (split; [reflexivity |]); try discriminate;
    intros f u [= <- _];
    rewrite <- !append_assoc; apply sanitize_filename_mp4.
Qed.

(** [download_video] never raises. A failure gives the empty name, and has
    left a file only if the download raised after writing it; a success
    gives a name that is not empty, and the download has said so. *)
Lemma download_video_cases env url w :
  exists f u w1,
    download_video env url w = (Ret (f, u), w1) /\
    ((f = "" /\
      (files w1 = files w \/
       exists k g n, ydl_download env k url g = (true, Some n) /\
                     files w1 = <[g := n]> (files w))) \/
     (f <> "" /\
      exists k written,
        ydl_download env k url f = (false, written) /\
        files w1 = match written with
                   | Some n => <[f := n]> (files w)
                   | None => files w
                   end)).
Proof.
  unfold download_video, try_except, bind at 1, next_call.
  unfold bind at 1.
  destruct (extract_info env (tick w) url) as [info|].
  2:{ unfold raise, print, emit, bind, ret. simpl. do 3 eexists.
      split; [reflexivity | left; split; [reflexivity | left; reflexivity]]. }
  unfold ret at 1. unfold bind at 1.
  match goal with
  | |- context [video_filename info ?w0] =>
      destruct (video_filename info w0) as [[[f u]|e] w0'] eqn:E;
      destruct (video_filename_run _ _ _ _ E) as [-> Hne]
  end.
  2:{ unfold print, emit, bind, ret. simpl. do 3 eexists.
      split; [reflexivity | left; split; [reflexivity | left; reflexivity]]. }
  specialize (Hne f u eq_refl).
  unfold bind, next_call, leave_file, ret, raise, print, emit. simpl.
  destruct (ydl_download env (S (tick w)) url f) as [raised written] eqn:Ed.
  simpl. destruct written as [n|]; destruct raised; simpl; do 3 eexists;
    (split; [reflexivity |]); simpl.
  - left. split; [reflexivity |]. right. eauto.
  - right. split; [exact Hne |]. exists (S (tick w)), (Some n). eauto.
  - left. split; [reflexivity |]. left. reflexivity.
  - right. split; [exact Hne |]. exists (S (tick w)), None. eauto.
Qed.

(** The path [compress_video] returns is its input or the derived one. *)
Lemma compress_video_path env f max_mb w p w2 :
  compress_video env f max_mb w = (Ret p, w2) ->
  p = f \/ p = "compressed_" +:+ f.
Proof.
  unfold compress_video, bind.
  destruct (getsize f w) as [[size|e] w0] eqn:Eg; [| discriminate].
  destruct (Qle_bool (size_in_mb size) max_mb).
  - intros [= <- <-]. tauto.
  - unfold try_except.
    destruct (reencode env f ("compressed_" +:+ f) max_mb w0) as [[o|e] w1] eqn:Er.
    + intros [= <- <-]. right.
      revert Er. unfold reencode, bind, next_call, ret, raise, py_div, emit,
        leave_file. simpl.
      destruct (VideoFileClip env (tick w0) f); [| discriminate].
      destruct (Qeq_bool q 0); [discriminate |]. simpl.
      destruct (write_videofile env (S (tick w0)) _) as [[] [n|]]; simpl;
        congruence.
    + unfold print, emit, bind, ret. simpl. intros [= <- <-]. tauto.
Qed.

Lemma reply_and_count_run env channel_id display m url path counts w r w' :
  reply_and_count env channel_id display m url path counts w = (r, w') ->
  files w' = files w /\ exists c, r = Ret c.
Proof.
  unfold reply_and_count, try_except, reply, bind at 1 2, path_exists.
  destruct (bool_decide (is_Some (files w !! path))).
  - unfold bind, next_call, emit, print, dict_incr, ret, raise. simpl.
    destruct (reply_accepted env (tick w) (msg_id m)); simpl;
      [destruct (dict_get channel_id counts); simpl |];
      intros [= <- <-]; simpl; eauto.
  - unfold bind, raise, print, emit, ret. simpl. intros [= <- <-]. simpl. eauto.
Qed.

Lemma clean_up_run f p w :
  exists w', clean_up f p w = (Ret tt, w') /\
             files w' = delete p (delete f (files w)).
Proof.
  unfold clean_up, bind at 1 2, path_exists, os_remove.
  destruct (files w !! f) as [n|] eqn:Ef.
  - rewrite bool_decide_eq_true_2 by eauto. rewrite Ef. simpl.
    destruct (String.eqb_spec p f) as [->|Hne]; simpl.
    + unfold ret. eexists. split; [reflexivity |]. simpl.
      rewrite delete_delete_eq. reflexivity.
    + unfold bind. simpl.
      destruct (delete f (files w) !! p) as [k|] eqn:Ep.
      * rewrite bool_decide_eq_true_2 by eauto. simpl. rewrite Ep.
        eexists. split; reflexivity.
      * rewrite bool_decide_eq_false_2 by (intros [? ?]; congruence).
        unfold ret. eexists. split; [reflexivity |]. simpl.
        rewrite (delete_id _ _ Ep). reflexivity.
  - rewrite bool_decide_eq_false_2 by (intros [? ?]; congruence).
    unfold ret at 1. rewrite (delete_id _ _ Ef).
    destruct (String.eqb_spec p f) as [->|Hne]; simpl.
    + unfold ret. eexists. split; [reflexivity |].
      rewrite (delete_id _ _ Ef). reflexivity.
    + unfold bind. simpl.
      destruct (files w !! p) as [k|] eqn:Ep.
      * rewrite bool_decide_eq_true_2 by eauto. simpl. rewrite Ep.
        eexists. split; reflexivity.
      * rewrite bool_decide_eq_false_2 by (intros [? ?]; congruence).
        unfold ret. eexists. split; [reflexivity |].
        rewrite (delete_id _ _ Ep). reflexivity.
Qed.
(** ** What is left on disk after a URL *)

Lemma size_gate_above (size : N) :
  negb (Qle_bool (size_in_mb size) MAX_DISCORD_FILESIZE_MB) = (8388608 <? size)%N.
Proof.
  destruct (N.ltb_spec 8388608 size) as [H|H].
  - rewrite Qle_bool_false; [reflexivity |].
    unfold Qle, size_in_mb, MAX_DISCORD_FILESIZE_MB. simpl. lia.
  - replace (Qle_bool (size_in_mb size) MAX_DISCORD_FILESIZE_MB) with true;
      [reflexivity |].
    symmetry. apply Qle_bool_iff.
    unfold Qle, size_in_mb, MAX_DISCORD_FILESIZE_MB. simpl. lia.
Qed.

(** Lines 133-152 for a file that is on disk: the path for the reply, the
    reply, the clean-up. *)
Lemma deliver_run env channel_id display m url counts f w size :
  files w !! f = Some size ->
  exists p w2 c w3 w',
    (if (8388608 <? size)%N
     then compress_video env f (8 # 1) else ret f) w = (Ret p, w2) /\
    (p = f \/ p = "compressed_" +:+ f) /\
    reply_and_count env channel_id display m url p counts w2 = (Ret c, w3) /\
    files w3 = files w2 /\
    deliver env channel_id display m url counts f w = (Ret c, w') /\
    files w' = delete p (delete f (files w2)).
Proof.
  intros Hf.
  assert (Hpath : exists p w2,
            (if (8388608 <? size)%N
             then compress_video env f (8 # 1) else ret f) w = (Ret p, w2) /\
            (p = f \/ p = "compressed_" +:+ f)).
  { destruct (8388608 <? size)%N.
    - destruct (compress_video_returns env f (8 # 1) w) as [p [w2 E]];
        [eauto |].
      exists p, w2. split; [exact E | apply (compress_video_path _ _ _ _ _ _ E)].
    - exists f, w. split; [reflexivity | tauto]. }
  destruct Hpath as [p [w2 [Ep Hp]]].
  destruct (reply_and_count env channel_id display m url p counts w2)
    as [r3 w3] eqn:Er.
  destruct (reply_and_count_run _ _ _ _ _ _ _ _ _ _ Er) as [Hf3 [c ->]].
  destruct (clean_up_run f p w3) as [w4 [Ec Hf4]].
  exists p, w2, c, w3, w4.
  split; [exact Ep | split; [exact Hp | split; [exact Er | split; [exact Hf3 |]]]].
  split; [| rewrite Hf4, Hf3; reflexivity].
  unfold deliver. unfold bind at 1. rewrite (getsize_present _ _ _ Hf).
  rewrite size_gate_above. change MAX_DISCORD_FILESIZE_MB with (8 # 1)%Q.
  unfold bind at 1. rewrite Ep. unfold bind at 1. rewrite Er.
  unfold bind. rewrite Ec. reflexivity.
Qed.

Lemma deliver_missing env channel_id display m url counts f w :
  files w !! f = None ->
  deliver env channel_id display m url counts f w = (Raise FileNotFoundError, w).
Proof.
  intros Hf. unfold deliver. unfold bind at 1.
  rewrite (getsize_missing _ _ Hf). reflexivity.
Qed.

(** Lines 128-132: up to the test of the file name. *)
Lemma process_url_run env channel_id display m counts url w :
  process_url env channel_id display m counts url w =
  if String.eqb (get_platform url) "unknown" then (Ret counts, w)
  else
    match download_video env url
            {| files := files w; tick := tick w;
               events := events w ++ [Print (ProcessingURL url (msg_id m) display)] |}
    with
    | (Ret (f, u), w1) =>
        if String.eqb f "" then (Ret counts, w1)
        else deliver env channel_id display m url counts f w1
    | (Raise e, w1) => (Raise e, w1)
    end.
Proof.
  unfold process_url. destruct (String.eqb (get_platform url) "unknown");
    [reflexivity |].
  cbn [negb]. cbv iota. unfold bind at 1, print, emit. unfold bind at 1.
  destruct (download_video env url _) as [[[f u]|e] w1]; [| reflexivity].
  simpl. destruct (String.eqb f ""); reflexivity.
Qed.

(** C3, as the code has it. A URL of no known platform changes nothing.
    For any other URL [download_video] returns; when it reports a failure
    (the empty file name), the URL is done with the disk as the download
    left it: nothing is removed. When it gives a file name and that file
    is not on disk, the size probe raises and nothing is removed either.
    When the file is on disk: the path for the reply is the file itself
    or [compressed_<file>]; the reply, accepted or not, leaves the disk as
    it is; and the URL is done with the disk as it was at the reply, less
    the downloaded file and less the file of the reply, and nothing else
    removed: neither of the two is on disk afterwards. *)
Theorem no_artifact_remains env channel_id display m counts url w :
  let logged :=
    {| files := files w; tick := tick w;
       events := events w ++ [Print (ProcessingURL url (msg_id m) display)] |} in
  let turn := process_url env channel_id display m counts url w in
  (get_platform url = "unknown" -> turn = (Ret counts, w)) /\
  (get_platform url <> "unknown" ->
   exists f u w1,
     download_video env url logged = (Ret (f, u), w1) /\
     (f = "" -> turn = (Ret counts, w1)) /\
     (f <> "" -> files w1 !! f = None ->
      turn = (Raise FileNotFoundError, w1)) /\
     (f <> "" -> forall size, files w1 !! f = Some size ->
      exists p w2 c w3 w',
        (if (8388608 <? size)%N
         then compress_video env f (8 # 1) else ret f) w1 = (Ret p, w2) /\
        (p = f \/ p = "compressed_" +:+ f) /\
        reply_and_count env channel_id display m url p counts w2 = (Ret c, w3) /\
        files w3 = files w2 /\
        turn = (Ret c, w') /\
        files w' = delete p (delete f (files w2)) /\
        files w' !! f = None /\
        files w' !! p = None)).
Proof.
  intros logged turn. unfold turn. rewrite process_url_run. fold logged.
  destruct (String.eqb_spec (get_platform url) "unknown") as [Hu|Hu];
    (split; [intros Hp | intros Hp]); try congruence.
  destruct (download_video_cases env url logged) as [f [u [w1 [E _]]]].
  exists f, u, w1. rewrite E.
  split; [reflexivity | split; [| split]].
  - intros ->. reflexivity.
  - intros Hne Hf. destruct (String.eqb_spec f ""); [congruence |].
    apply deliver_missing, Hf.
  - intros Hne size Hf. destruct (String.eqb_spec f ""); [congruence |].
    destruct (deliver_run env channel_id display m url counts f w1 size Hf)
      as [p [w2 [c [w3 [w' [Ep [Hp' [Er [Hf3 [Ed Hfiles]]]]]]]]]].
    exists p, w2, c, w3, w'.
    repeat (split; [assumption |]).
    rewrite Hfiles. split.
    + destruct (decide (p = f)) as [->|Hpf];
        [apply lookup_delete_eq |].
      rewrite lookup_delete_ne by congruence. apply lookup_delete_eq.
    + apply lookup_delete_eq.
Qed.

(** A nine-megabyte download, compressed and sent: the disk ends empty. *)
Lemma no_artifact_remains_witness :
  let env := Sample.calm [] 9000000 in
  exists c w',
    process_url env Sample.first_channel "general" Sample.one_link
      [(Sample.first_channel, 0)] "https://youtu.be/a" (start ∅) = (Ret c, w') /\
    files w' !! "up clip.mp4" = None /\
    files w' !! "compressed_up clip.mp4" = None.
Proof.
  intros env.
  destruct (no_artifact_remains env Sample.first_channel "general"
              Sample.one_link [(Sample.first_channel, 0)] "https://youtu.be/a"
              (start ∅)) as [_ H].
  destruct (H ltac:(discriminate)) as [f [u [w1 [E [_ [_ Hok]]]]]].
  vm_compute in E. injection E as <- <- <-.
  destruct (Hok ltac:(discriminate) 9000000%N eq_refl)
    as [p [w2 [c [w3 [w' [Ep [_ [_ [_ [Ed [_ [Hf Hp]]]]]]]]]]]].
  vm_compute in Ep. injection Ep as <- <-.
  exists c, w'. split; [exact Ed | split; [exact Hf | exact Hp]].
Defined.

Example compressed_file_removed :
  let env := Sample.calm [] 9000000 in
  let run :=
    process_url env Sample.first_channel "general" Sample.one_link
      [(Sample.first_channel, 0)] "https://youtu.be/a" (start ∅) in
  fst run = Ret [(Sample.first_channel, 1)] /\
  In (Reply 11 "sent on 01-Jan-26 by alice#1234" "compressed_up clip.mp4" true)
    (events (snd run)) /\
  files (snd run) = ∅.
Proof. vm_compute. repeat split. tauto. Qed.

(** C3 fails as stated. A download that raises after it has written its
    file leaves that file on disk: the code removes nothing when
    [download_video] reports a failure. A re-encoding that raises after it
    has started its output leaves [compressed_<file>] on disk: the
    fallback returns the original path, which is all that is removed. *)
Lemma artifact_left_behind :
  (let env := Sample.with_download (fun _ _ _ => (true, Some 9000000%N))
                (Sample.calm [] 0) in
   let run :=
     process_url env Sample.first_channel "general" Sample.one_link
       [(Sample.first_channel, 0)] "https://youtu.be/a" (start ∅) in
   fst run = Ret [(Sample.first_channel, 0)] /\
   files (snd run) !! "up clip.mp4" = Some 9000000%N) /\
  (let env := Sample.with_encoder (fun _ _ => Some (10 # 1)%Q)
                (fun _ _ => (true, Some 100%N)) (Sample.calm [] 9000000) in
   let run :=
     process_url env Sample.first_channel "general" Sample.one_link
       [(Sample.first_channel, 0)] "https://youtu.be/a" (start ∅) in
   fst run = Ret [(Sample.first_channel, 1)] /\
   files (snd run) !! "up clip.mp4" = None /\
   files (snd run) !! "compressed_up clip.mp4" = Some 100%N).
Proof. vm_compute. repeat split. Qed.

(** ** Errors and the summary step *)

Lemma returns_channel_history env channel_id :
  (forall k c, history env k c <> None) ->
  returns (channel_history env channel_id).
Proof.
  intros Hh w. unfold channel_history, bind, next_call, ret. simpl.
  destruct (history env (tick w) channel_id) eqn:E; [eauto |].
  destruct (Hh _ _ E).
Qed.



(** *** The four handlers *)


Lemma returns_download_video env url : returns (download_video env url).
Proof.
  intros w. destruct (download_video_cases env url w) as [f [u [w1 [E _]]]].
  eauto.
Qed.



Lemma returns_reply_and_count env channel_id display m url path counts :
  returns (reply_and_count env channel_id display m url path counts).
Proof.
  intros w.
  destruct (reply_and_count env channel_id display m url path counts w)
    as [r w'] eqn:E.
  destruct (reply_and_count_run _ _ _ _ _ _ _ _ _ _ E) as [_ [c ->]]. eauto.
Qed.






(** ** The processed counts *)

(** A reply that goes through adds one to the channel's count; a reply
    that does not leaves the counts as they were. *)
Lemma reply_and_count_value env channel_id display m url path counts w size v :
  files w !! path = Some size ->
  dict_get channel_id counts = Some v ->
  fst (reply_and_count env channel_id display m url path counts w) =
  Ret (if reply_accepted env (tick w) (msg_id m)
       then dict_set channel_id (v + 1) counts else counts).
Proof.
  intros Hf Hk.
  unfold reply_and_count, try_except, reply, bind, path_exists. simpl.
  rewrite Hf, bool_decide_eq_true_2 by eauto.
  unfold next_call, emit, print, dict_incr, ret, raise. simpl.
  destruct (reply_accepted env (tick w) (msg_id m)); simpl;
    [rewrite Hk |]; reflexivity.
Qed.

(** C1 on a message with two links. The first configured channel holds a
    single new message, which carries two links to a video platform; both
    downloads and both replies go through. The count of the channel is
    raised once per reply, and the summary reports two converted messages
    for the one message there is. *)
Theorem two_links_counted_twice :
  init_counts CHANNEL_IDS = map (fun channel_id => (channel_id, 0)) CHANNEL_IDS /\
  findall_urls (msg_content Sample.two_links) =
    ["https://youtu.be/a"; "https://youtu.be/b"] /\
  on_ready (Sample.calm [Sample.two_links] 1000) (start ∅) =
    (Ret tt,
     {| files := ∅; tick := 10;
        events :=
          [Print LoggedIn;
           Print (ProcessingURL "https://youtu.be/a" 10
                    "general (911164219238514688)");
           Reply 10 "sent on 01-Jan-26 by alice#1234" "up clip.mp4" true;
           Print (Replied 10 "https://youtu.be/a" "general (911164219238514688)");
           Print (ProcessingURL "https://youtu.be/b" 10
                    "general (911164219238514688)");
           Reply 10 "sent on 01-Jan-26 by alice#1234" "up clip.mp4" true;
           Print (Replied 10 "https://youtu.be/b" "general (911164219238514688)");
           Print (ProcessingComplete "general (911164219238514688)");
           Print Waiting; Sleep 60;
           Print (ChannelNotFound 911164241216667678);
           Print (ChannelNotFound 1005713269094350938);
           Print (ChannelNotFound 912017250909847623);
           Print (ChannelNotFound 912017322993139752);
           Print (ChannelNotFound 912017388042592286);
           Print (ChannelNotFound 912017417142689872);
           Print (ChannelNotFound 1218954199916871691);
           Send LOG_CHANNEL_ID
             (String.concat (String "010" EmptyString)
                ["total 2 msg converted in <#911164219238514688>";
                 "total 0 msg converted in <#911164241216667678>";
                 "total 0 msg converted in <#1005713269094350938>";
                 "total 0 msg converted in <#912017250909847623>";
                 "total 0 msg converted in <#912017322993139752>";
                 "total 0 msg converted in <#912017388042592286>";
                 "total 0 msg converted in <#912017417142689872>";
                 "total 0 msg converted in <#1218954199916871691>"])
             true;
           Print SentSummary; Close] |}).
Proof. vm_compute. repeat split. Qed.

(** ** More on the text helpers *)

Lemma starts_with_spec needle hay :
  starts_with needle hay = true <-> exists suf, hay = needle ++ suf.
Proof.
  revert hay. induction needle as [|a n IH]; intros hay; simpl.
  - split; [intros _; exists hay; reflexivity | reflexivity].
  - destruct hay as [|b h]; [split; [discriminate | intros [suf E]; discriminate] |].
    rewrite andb_true_iff, IH. split.
    + intros [Hab [suf ->]]. apply Ascii.eqb_eq in Hab as ->. eauto.
    + intros [suf [= -> ->]]. split; [apply Ascii.eqb_refl | eauto].
Qed.

Lemma contains_chars_spec needle hay :
  contains_chars needle hay = true <-> exists pre suf, hay = pre ++ needle ++ suf.
Proof.
  induction hay as [|c h IH].
  - simpl. rewrite orb_false_r, starts_with_spec. split.
    + intros [suf E]. exists [], suf. exact E.
    + intros [pre [suf E]]. destruct pre; [eauto | discriminate].
  - change (contains_chars needle (c :: h))
      with (starts_with needle (c :: h) || contains_chars needle h).
    rewrite orb_true_iff, starts_with_spec, IH. split.
    + intros [[suf E]|[pre [suf E]]].
      * exists [], suf. exact E.
      * exists (c :: pre), suf. simpl. rewrite E. reflexivity.
    + intros [[|x pre] [suf E]].
      * left. eauto.
      * right. simpl in E. injection E as _ E. eauto.
Qed.

Lemma contains_spec needle hay :
  contains needle hay = true <-> occurs_in needle hay.
Proof. unfold contains, occurs_in. apply contains_chars_spec. Qed.

Lemma contains_false needle hay :
  contains needle hay = false <-> ~ occurs_in needle hay.
Proof.
  rewrite <- contains_spec.
  destruct (contains needle hay); split; intros H;
    try discriminate; try tauto; try (destruct H; reflexivity).
Qed.

(** X1. [get_platform] answers with one of four tags, decided by which of
    the four marks occur in the URL, in this order of priority: the
    Instagram reel path, then either YouTube domain, then the Reddit
    domain; [unknown] is the answer exactly when none of them occurs. *)
Theorem get_platform_classification (url : string) :
  (get_platform url = "instagram" <-> occurs_in "instagram.com/reel" url) /\
  (get_platform url = "youtube" <->
     ~ occurs_in "instagram.com/reel" url /\
     (occurs_in "youtube.com" url \/ occurs_in "youtu.be" url)) /\
  (get_platform url = "reddit" <->
     ~ occurs_in "instagram.com/reel" url /\
     ~ occurs_in "youtube.com" url /\ ~ occurs_in "youtu.be" url /\
     occurs_in "reddit.com" url) /\
  (get_platform url = "unknown" <->
     ~ occurs_in "instagram.com/reel" url /\
     ~ occurs_in "youtube.com" url /\ ~ occurs_in "youtu.be" url /\
     ~ occurs_in "reddit.com" url).
Proof.
  unfold get_platform.
  destruct (contains "instagram.com/reel" url) eqn:Hi;
  destruct (contains "youtube.com" url) eqn:Hy;
  destruct (contains "youtu.be" url) eqn:Hb;
  destruct (contains "reddit.com" url) eqn:Hr; simpl;
  rewrite ?contains_spec, ?contains_false in *;
  repeat split; intros; try discriminate; tauto.
Qed.

Example get_platform_priority :
  get_platform "https://www.instagram.com/reel/x?from=youtube.com" = "instagram" /\
  get_platform "https://youtu.be/x?ref=reddit.com" = "youtube" /\
  get_platform "https://www.instagram.com/p/x" = "unknown".
Proof. repeat split. Qed.

(** ** The URLs of a message *)

Lemma nonspace_run_spec (r : list ascii) :
  Forall (fun c => is_space c = false) (firstn (nonspace_run r) r) /\
  (skipn (nonspace_run r) r = [] \/
   exists c rest, skipn (nonspace_run r) r = c :: rest /\ is_space c = true).
Proof.
  induction r as [|c tl [IH1 IH2]]; simpl.
  - split; [constructor | left; reflexivity].
  - destruct (is_space c) eqn:Hc; simpl.
    + split; [constructor | right; eauto].
    + split; [constructor; assumption | exact IH2].
Qed.

Lemma url_match_spec (s : list ascii) (n : nat) :
  url_match s = Some n ->
  exists scheme body,
    (scheme = chars "https://" \/ scheme = chars "http://") /\
    body <> [] /\
    firstn n s = scheme ++ body /\
    Forall (fun c => is_space c = false) body /\
    (skipn n s = [] \/
     exists c rest, skipn n s = c :: rest /\ is_space c = true).
Proof.
  unfold url_match.
  destruct (starts_with (chars "https://") s) eqn:Hs.
  - apply starts_with_spec in Hs as [suf ->].
    change (skipn 8 (chars "https://" ++ suf)) with suf.
    destruct (nonspace_run suf) as [|m] eqn:Hrun; [discriminate |].
    intros [= <-]. destruct (nonspace_run_spec suf) as [Hall Hend].
    rewrite Hrun in Hall, Hend.
    exists (chars "https://"), (firstn (S m) suf). repeat split.
    + left. reflexivity.
    + destruct suf; [discriminate | discriminate].
    + exact Hall.
    + exact Hend.
  - destruct (starts_with (chars "http://") s) eqn:Hs'; [| discriminate].
    apply starts_with_spec in Hs' as [suf ->].
    change (skipn 7 (chars "http://" ++ suf)) with suf.
    destruct (nonspace_run suf) as [|m] eqn:Hrun; [discriminate |].
    intros [= <-]. destruct (nonspace_run_spec suf) as [Hall Hend].
    rewrite Hrun in Hall, Hend.
    exists (chars "http://"), (firstn (S m) suf). repeat split.
    + right. reflexivity.
    + destruct suf; [discriminate | discriminate].
    + exact Hall.
    + exact Hend.
Qed.

Lemma findall_from_sound (s : list ascii) :
  forall skip u, In u (findall_from skip s) ->
  exists pre suf scheme body,
    s = pre ++ chars u ++ suf /\
    (scheme = chars "https://" \/ scheme = chars "http://") /\
    body <> [] /\
    chars u = scheme ++ body /\
    Forall (fun c => is_space c = false) body /\
    (suf = [] \/ exists c rest, suf = c :: rest /\ is_space c = true).
Proof.
  induction s as [|c tl IH]; intros skip u Hu; [destruct Hu |].
  assert (Hlater : forall k, In u (findall_from k tl) ->
            exists pre suf scheme body,
              c :: tl = pre ++ chars u ++ suf /\
              (scheme = chars "https://" \/ scheme = chars "http://") /\
              body <> [] /\
              chars u = scheme ++ body /\
              Forall (fun c => is_space c = false) body /\
              (suf = [] \/ exists c rest, suf = c :: rest /\ is_space c = true)).
  { intros k Hk.
    destruct (IH k u Hk) as [pre [suf [scheme [body [E H]]]]].
    exists (c :: pre), suf, scheme, body. split; [| exact H].
    simpl. rewrite <- E. reflexivity. }
  simpl in Hu. destruct skip as [|k]; [| exact (Hlater _ Hu)].
  destruct (url_match (c :: tl)) as [n|] eqn:Hm; [| exact (Hlater _ Hu)].
  destruct Hu as [<-|Hu]; [| exact (Hlater _ Hu)].
  destruct (url_match_spec _ _ Hm) as [scheme [body [Hs [Hb [Hf [Hall Hend]]]]]].
  exists [], (skipn n (c :: tl)), scheme, body.
  rewrite chars_text. repeat split; try assumption.
  simpl app. rewrite firstn_skipn. reflexivity.
Qed.

(** X2. Every URL that line 126 finds in a message occurs in its content,
    is [http://] or [https://] followed by at least one character, holds no
    white space, and runs up to the next white space or to the end of the
    content. *)
Theorem findall_urls_sound (content u : string) :
  In u (findall_urls content) ->
  exists pre suf scheme body,
    chars content = pre ++ chars u ++ suf /\
    (scheme = chars "https://" \/ scheme = chars "http://") /\
    body <> [] /\
    chars u = scheme ++ body /\
    Forall (fun c => is_space c = false) body /\
    (suf = [] \/ exists c rest, suf = c :: rest /\ is_space c = true).
Proof. unfold findall_urls. apply findall_from_sound. Qed.

Lemma findall_urls_sound_witness :
  exists pre suf scheme body,
    chars "see http://x.org/b, ok" = pre ++ chars "http://x.org/b," ++ suf /\
    (scheme = chars "https://" \/ scheme = chars "http://") /\
    body <> [] /\
    chars "http://x.org/b," = scheme ++ body /\
    Forall (fun c => is_space c = false) body /\
    (suf = [] \/ exists c rest, suf = c :: rest /\ is_space c = true).
Proof.
  apply (findall_urls_sound "see http://x.org/b, ok" "http://x.org/b,").
  simpl. left. reflexivity.
Defined.

Lemma starts_with_prefix (p q s : list ascii) :
  starts_with (p ++ q) s = true -> starts_with p s = true.
Proof.
  rewrite !starts_with_spec. intros [suf ->]. exists (q ++ suf).
  rewrite app_assoc. reflexivity.
Qed.

Lemma findall_from_none (s : list ascii) :
  contains_chars (chars "http") s = false ->
  forall skip, findall_from skip s = [].
Proof.
  induction s as [|c tl IH]; intros H skip; [reflexivity |].
  change (contains_chars (chars "http") (c :: tl))
    with (starts_with (chars "http") (c :: tl) || contains_chars (chars "http") tl)
    in H.
  apply orb_false_iff in H as [Hhere Hlater].
  simpl. destruct skip as [|k]; [| apply IH, Hlater].
  assert (Hm : url_match (c :: tl) = None).
  { unfold url_match.
    destruct (starts_with (chars "https://") (c :: tl)) eqn:E1.
    - apply (starts_with_prefix (chars "http") (chars "s://")) in E1. congruence.
    - destruct (starts_with (chars "http://") (c :: tl)) eqn:E2; [| reflexivity].
      apply (starts_with_prefix (chars "http") (chars "://")) in E2. congruence. }
  rewrite Hm. apply IH, Hlater.
Qed.

(** X3. A message in which [http] does not occur gives no URL, so nothing
    is downloaded for it. *)
Theorem findall_urls_without_http (content : string) :
  ~ occurs_in "http" content -> findall_urls content = [].
Proof.
  intros H. apply contains_false in H. unfold findall_urls.
  apply findall_from_none. exact H.
Qed.

Lemma findall_urls_without_http_witness :
  findall_urls "see www.youtube.com/watch?v=x" = [].
Proof.
  apply findall_urls_without_http. apply contains_false. reflexivity.
Defined.

(** ** Which URLs are dealt with *)

Lemma process_url_unknown env channel_id display m counts url w :
  is_platform_url url = false ->
  process_url env channel_id display m counts url w = (Ret counts, w).
Proof. unfold is_platform_url, process_url. intros ->. reflexivity. Qed.

Lemma for_each_filter {A S} (body : S -> A -> M S) (keep : A -> bool) l :
  (forall s x w, keep x = false -> body s x w = (Ret s, w)) ->
  forall s w, for_each body l s w = for_each body (List.filter keep l) s w.
Proof.
  intros Hskip. induction l as [|x tl IH]; intros s w; [reflexivity |].
  simpl List.filter. destruct (keep x) eqn:Hx.
  - rewrite !for_each_cons. destruct (body s x w) as [[s'|e] w1]; [apply IH | reflexivity].
  - rewrite for_each_cons, (Hskip _ _ _ Hx). apply IH.
Qed.

(** X4. A URL of no known platform is passed over without a trace: no
    line is logged, no call is made, the counts stay as they are. So the
    processing of a message is the processing of its platform URLs alone,
    in the order in which they occur. *)
Theorem process_message_only_platform_urls env channel_id display counts m w :
  (forall url c w0,
      get_platform url = "unknown" ->
      process_url env channel_id display m c url w0 = (Ret c, w0)) /\
  process_message env channel_id display counts m w =
  for_each (process_url env channel_id display m)
    (List.filter is_platform_url (findall_urls (msg_content m))) counts w.
Proof.
  split.
  - intros url c w0 H. apply process_url_unknown. unfold is_platform_url.
    rewrite H. reflexivity.
  - unfold process_message. apply for_each_filter.
    intros s x w0 Hx. apply process_url_unknown, Hx.
Qed.

(** A message with a YouTube link and an unrelated link: one download and
    one reply, for the YouTube link. *)
Example one_cycle_for_two_links :
  let m := {| msg_id := 20; msg_author := Sample.alice;
              msg_content := "https://youtu.be/a and https://example.org/page";
              msg_created_at := 9000000 |} in
  process_message (Sample.calm [] 1000) Sample.first_channel "general"
    [(Sample.first_channel, 0)] m (start ∅) =
  (Ret [(Sample.first_channel, 1)],
   {| files := ∅; tick := 3;
      events :=
        [Print (ProcessingURL "https://youtu.be/a" 20 "general");
         Reply 20 "sent on 01-Jan-26 by alice#1234" "up clip.mp4" true;
         Print (Replied 20 "https://youtu.be/a" "general")] |}).
Proof. vm_compute. reflexivity. Qed.

(** ** The name of a downloaded file *)









Example download_video_long_title :
  let info := {| info_title :=
                   Some (PyStr ("a/b: what? " +:+ String "010" "second line"));
                 info_uploader := Some (PyStr "");
                 info_channel := None;
                 info_subreddit := Some (PyStr "videos") |} in
  fst (video_filename info (start ∅)) = Ret ("videos ab what .mp4", "videos").
Proof. reflexivity. Qed.

(** ** Files at or below the limit, and very long clips *)

Lemma size_gate_bytes (size : N) :
  Qle_bool (size_in_mb size) MAX_DISCORD_FILESIZE_MB = true <->
  (size <= 8388608)%N.
Proof.
  rewrite Qle_bool_iff. unfold Qle, size_in_mb, MAX_DISCORD_FILESIZE_MB. simpl.
  lia.
Qed.

Lemma reply_and_count_present env channel_id display m url path counts w size v :
  files w !! path = Some size ->
  dict_get channel_id counts = Some v ->
  reply_and_count env channel_id display m url path counts w =
  (Ret (if reply_accepted env (tick w) (msg_id m)
        then dict_set channel_id (v + 1) counts else counts),
   {| files := files w;
      tick := S (tick w);
      events :=
        events w ++
        [Reply (msg_id m)
           ("sent on " +:+ strftime env (msg_created_at m) +:+ " by "
            +:+ user_tag (msg_author m)) path
           (reply_accepted env (tick w) (msg_id m));
         Print (if reply_accepted env (tick w) (msg_id m)
                then Replied (msg_id m) url display
                else ReplyFailed (msg_id m) display HTTPException)] |}).
Proof.
  intros Hf Hk.
  unfold reply_and_count, try_except, reply, bind, path_exists. simpl.
  rewrite Hf, bool_decide_eq_true_2 by eauto.
  unfold next_call, emit, print, dict_incr, ret, raise. simpl.
  destruct (reply_accepted env (tick w) (msg_id m)); simpl;
    rewrite ?Hk; simpl; rewrite <- ?app_assoc; reflexivity.
Qed.

Lemma clean_up_same f w size :
  files w !! f = Some size ->
  clean_up f f w =
  (Ret tt, {| files := delete f (files w); tick := tick w; events := events w |}).
Proof.
  intros Hf. unfold clean_up, bind, path_exists, os_remove. simpl.
  rewrite bool_decide_eq_true_2 by eauto. rewrite Hf.
  rewrite String.eqb_refl. reflexivity.
Qed.

(** X6. A downloaded file of at most 8388608 bytes (8 MiB) is sent as it
    is: no call to the encoder, one reply with the file itself. The count
    of the channel goes up by one when the reply is accepted and stays
    when it is refused; either way the file is gone from the disk
    afterwards and nothing else on disk has changed. *)
Theorem deliver_small_file env channel_id display m url counts f w size v :
  files w !! f = Some size ->
  (size <= 8388608)%N ->
  dict_get channel_id counts = Some v ->
  let ok := reply_accepted env (tick w) (msg_id m) in
  deliver env channel_id display m url counts f w =
  (Ret (if ok then dict_set channel_id (v + 1) counts else counts),
   {| files := delete f (files w);
      tick := S (tick w);
      events :=
        events w ++
        [Reply (msg_id m)
           ("sent on " +:+ strftime env (msg_created_at m) +:+ " by "
            +:+ user_tag (msg_author m)) f ok;
         Print (if ok then Replied (msg_id m) url display
                else ReplyFailed (msg_id m) display HTTPException)] |}).
Proof.
  intros Hf Hsize Hk ok. subst ok.
  apply size_gate_bytes in Hsize.
  unfold deliver, bind. rewrite (getsize_present _ _ _ Hf), Hsize.
  cbn [negb]. change (ret f w) with (Ret f, w). cbv iota beta.
  rewrite (reply_and_count_present _ _ _ _ _ _ _ _ _ _ Hf Hk).
  erewrite clean_up_same by (simpl; exact Hf). reflexivity.
Qed.

Lemma deliver_small_file_witness :
  deliver
    (Sample.with_replies (fun _ _ => false) (Sample.calm [] 0))
    Sample.first_channel "general" Sample.one_link "https://youtu.be/a"
    [(Sample.first_channel, 4)] "v.mp4"
    (start (Sample.disk_with "v.mp4" 8388608)) =
  (Ret [(Sample.first_channel, 4)],
   {| files := delete "v.mp4" (Sample.disk_with "v.mp4" 8388608);
      tick := 1;
      events :=
        [Reply 11 "sent on 01-Jan-26 by alice#1234" "v.mp4" false;
         Print (ReplyFailed 11 "general" HTTPException)] |}).
Proof.
  apply (deliver_small_file
           (Sample.with_replies (fun _ _ => false) (Sample.calm [] 0))
           Sample.first_channel "general" Sample.one_link "https://youtu.be/a"
           [(Sample.first_channel, 4)] "v.mp4"
           (start (Sample.disk_with "v.mp4" 8388608)) 8388608%N 4).
  - reflexivity.
  - lia.
  - reflexivity.
Defined.

Lemma py_int_below_one (q : Q) : (0 <= q)%Q -> (q < 1)%Q -> py_int q = 0.
Proof.
  unfold Qle, Qlt, py_int. simpl. intros H0 H1.
  apply Z.quot_small. lia.
Qed.

(** X7. For a clip that lasts more than [max_mb * 8192] seconds, the
    bitrate handed to the encoder is [0k]: the target falls below one
    kilobit per second and [int] cuts it to zero. *)
Theorem bitrate_of_long_clip env path max_mb w size duration r w' :
  files w !! path = Some size ->
  ~ (size_in_mb size <= max_mb)%Q ->
  (0 <= max_mb)%Q ->
  VideoFileClip env (tick w) path = Some duration ->
  (max_mb * (8192 # 1) < duration)%Q ->
  compress_video env path max_mb w = (r, w') ->
  In (Encode {| enc_input := path;
                enc_output := "compressed_" +:+ path;
                enc_bitrate := "0k";
                enc_codec := "libx264";
                enc_audio_codec := "aac" |}) (events w').
Proof.
  intros Hf Hgt Hmax Hclip Hlong.
  assert (Hpos : (0 < duration)%Q).
  { eapply Qle_lt_trans; [| exact Hlong].
    apply Qmult_le_0_compat; [exact Hmax | discriminate]. }
  assert (Hint : py_int (max_mb * (8192 # 1) / duration)%Q = 0).
  { apply py_int_below_one.
    - apply Qle_shift_div_l; [exact Hpos |]. rewrite Qmult_0_l.
      apply Qmult_le_0_compat; [exact Hmax | discriminate].
    - apply Qlt_shift_div_r; [exact Hpos |]. rewrite Qmult_1_l. exact Hlong. }
  unfold compress_video, bind. rewrite (getsize_present _ _ _ Hf).
  rewrite (Qle_bool_false _ _ Hgt).
  unfold try_except, reencode, bind, next_call, py_div, ret, raise, emit,
    leave_file, print. simpl.
  rewrite Hclip. rewrite Qeq_bool_false.
  2:{ intros E. rewrite E in Hpos. discriminate. }
  simpl. rewrite Hint. change (pretty 0 +:+ "k") with "0k".
  destruct (write_videofile env (S (tick w)) _) as [[] [n|]]; simpl;
    intros [= <- <-]; simpl; rewrite ?in_app_iff; simpl; tauto.
Qed.

(** A day-long clip and the 8 MB limit. *)
Lemma bitrate_of_long_clip_witness :
  let env := Sample.with_encoder (fun _ _ => Some (86400 # 1)%Q)
               (fun _ _ => (false, Some 7000000%N)) (Sample.calm [] 0) in
  let run := compress_video env "v.mp4" (8 # 1)
               (start (Sample.disk_with "v.mp4" 9000000)) in
  In (Encode {| enc_input := "v.mp4";
                enc_output := "compressed_v.mp4";
                enc_bitrate := "0k";
                enc_codec := "libx264";
                enc_audio_codec := "aac" |}) (events (snd run)).
Proof.
  intros env run.
  apply (bitrate_of_long_clip env "v.mp4" (8 # 1)
           (start (Sample.disk_with "v.mp4" 9000000)) 9000000%N (86400 # 1)%Q
           (fst run) (snd run)).
  - reflexivity.
  - unfold Qle. simpl. lia.
  - unfold Qle. simpl. lia.
  - reflexivity.
  - unfold Qlt. simpl. lia.
  - vm_compute. reflexivity.
Defined.

(** X12. The cleaning of lines 148-152 never raises, whether or not the
    two files exist; afterwards neither path names a file, every other
    file is as it was, and nothing has been logged. *)
Theorem clean_up_removes_both (video_file video_path : string) (w : World) :
  exists w',
    clean_up video_file video_path w = (Ret tt, w') /\
    files w' !! video_file = None /\
    files w' !! video_path = None /\
    (forall q, q <> video_file -> q <> video_path ->
               files w' !! q = files w !! q) /\
    events w' = events w.
Proof.
  destruct (clean_up_run video_file video_path w) as [w' [E Hf]].
  exists w'. split; [exact E |]. rewrite Hf. repeat split.
  - destruct (decide (video_path = video_file)) as [->|Hne].
    + apply lookup_delete_eq.
    + rewrite lookup_delete_ne by exact Hne. apply lookup_delete_eq.
  - apply lookup_delete_eq.
  - intros q H1 H2. rewrite !lookup_delete_ne by congruence. reflexivity.
  - destruct (sat_clean_up no_event video_file video_path w _ _ E)
      as [[d [Ed Fd]] _].
    destruct d as [|e d]; [rewrite app_nil_r in Ed; exact Ed |].
    apply Forall_cons_iff in Fd as [[] _].
Qed.

(** ** Counts and accepted replies *)

Lemma accepted_replies_app l1 l2 :
  accepted_replies (l1 ++ l2) = accepted_replies l1 + accepted_replies l2.
Proof.
  induction l1 as [|e tl IH]; [reflexivity |].
  simpl. destruct e as [| | |? ? ? []| |]; rewrite ?IH; lia.
Qed.

Lemma accepted_replies_none l :
  Forall not_accepted l -> accepted_replies l = 0.
Proof.
  induction 1 as [|e tl He _ IH]; [reflexivity |].
  simpl. destruct e as [| | |? ? ? []| |]; try exact IH. destruct He.
Qed.

Lemma not_accepted_work :
  (forall l, not_accepted (Print l)) /\
  (forall req, not_accepted (Encode req)).
Proof. split; intros; exact I. Qed.

Section Tally.
Variable channel_id : Z.

Lemma tally_ret d : tally channel_id d (ret d).
Proof.
  intros w r w' [= <- <-]. exists []. rewrite app_nil_r.
  split; [reflexivity |]. intros d' [= <-]. split; [reflexivity |].
  intros v Hv. rewrite Hv. simpl. f_equal. lia.
Qed.

Lemma tally_silent {A} d (m : M A) (k : A -> M Dict) :
  sat (extends not_accepted) (fun _ => True) m ->
  (forall a, tally channel_id d (k a)) ->
  tally channel_id d (bind m k).
Proof.
  intros Hm Hk w r w'. unfold bind.
  destruct (m w) as [[a|e] w1] eqn:E; intros H.
  - destruct (Hm _ _ _ E) as [[d1 [E1 F1]] _].
    destruct (Hk a _ _ _ H) as [d2 [E2 H2]].
    exists (d1 ++ d2). split; [rewrite E2, E1, app_assoc; reflexivity |].
    intros d' Hr. destruct (H2 d' Hr) as [Hother Hown]. split; [exact Hother |].
    intros v Hv. rewrite (Hown v Hv), accepted_replies_app,
      (accepted_replies_none _ F1). reflexivity.
  - inversion H; subst. destruct (Hm _ _ _ E) as [[d1 [E1 F1]] _].
    exists d1. split; [exact E1 | discriminate].
Qed.

Lemma tally_trans d (m : M Dict) (k : Dict -> M Dict) :
  tally channel_id d m ->
  (forall d1, tally channel_id d1 (k d1)) ->
  tally channel_id d (bind m k).
Proof.
  intros Hm Hk w r w'. unfold bind.
  destruct (m w) as [[d1|e] w1] eqn:E; intros H.
  - destruct (Hm _ _ _ E) as [l1 [E1 H1]].
    destruct (H1 d1 eq_refl) as [Hother1 Hown1].
    destruct (Hk d1 _ _ _ H) as [l2 [E2 H2]].
    exists (l1 ++ l2). split; [rewrite E2, E1, app_assoc; reflexivity |].
    intros d' Hr. destruct (H2 d' Hr) as [Hother2 Hown2]. split.
    + intros k0 Hk0. rewrite (Hother2 _ Hk0). apply Hother1, Hk0.
    + intros v Hv. rewrite (Hown2 _ (Hown1 v Hv)), accepted_replies_app.
      f_equal. lia.
  - inversion H; subst. destruct (Hm _ _ _ E) as [l1 [E1 _]].
    exists l1. split; [exact E1 | discriminate].
Qed.

Lemma tally_if d (b : bool) m1 m2 :
  tally channel_id d m1 -> tally channel_id d m2 ->
  tally channel_id d (if b then m1 else m2).
Proof. destruct b; tauto. Qed.

Lemma tally_for_each {A} (body : Dict -> A -> M Dict) l :
  (forall d x, tally channel_id d (body d x)) ->
  forall d, tally channel_id d (for_each body l d).
Proof.
  intros Hbody. induction l as [|x tl IH]; intros d; simpl.
  - apply tally_ret.
  - apply tally_trans; [apply Hbody | exact IH].
Qed.

Variable env : Env.

Lemma tally_reply_and_count display m url path d :
  tally channel_id d (reply_and_count env channel_id display m url path d).
Proof.
  intros w r w'.
  unfold reply_and_count, try_except, reply, bind, path_exists. simpl.
  destruct (bool_decide (is_Some (files w !! path))).
  - unfold next_call, emit, print, dict_incr, ret, raise. simpl.
    destruct (reply_accepted env (tick w) (msg_id m)); simpl.
    + destruct (dict_get channel_id d) as [v|] eqn:Hv; simpl;
        intros [= <- <-]; simpl; eexists;
        (split; [rewrite <- ?app_assoc; reflexivity |]);
        intros d' [= <-]; split.
      * intros k Hk. apply dict_get_set_other, Hk.
      * intros v' [= <-]. rewrite dict_get_set_same. reflexivity.
      * reflexivity.
      * intros v' Hv'. discriminate.
    + intros [= <- <-]. simpl. eexists.
      split; [rewrite <- ?app_assoc; reflexivity |].
      intros d' [= <-]. split; [reflexivity |].
      intros v Hv. rewrite Hv. simpl. f_equal. lia.
  - unfold raise, print, emit, ret. simpl. intros [= <- <-]. simpl. eexists.
    split; [reflexivity |].
    intros d' [= <-]. split; [reflexivity |].
    intros v Hv. rewrite Hv. simpl. f_equal. lia.
Qed.

Lemma tally_deliver display m url d f :
  tally channel_id d (deliver env channel_id display m url d f).
Proof.
  destruct not_accepted_work as [Hp He].
  unfold deliver.
  apply tally_silent; [apply sat_getsize | intros size].
  apply tally_silent.
  { apply (sat_if _); [apply sat_compress_video; assumption
                      | apply (sat_ret _); trivial]. }
  intros p. apply tally_trans; [apply tally_reply_and_count | intros d1].
  apply tally_silent; [apply sat_clean_up | intros _]. apply tally_ret.
Qed.

Lemma tally_process_url display m d url :
  tally channel_id d (process_url env channel_id display m d url).
Proof.
  destruct not_accepted_work as [Hp He].
  unfold process_url. apply tally_if; [| apply tally_ret].
  apply tally_silent; [apply sat_print; assumption | intros _].
  apply tally_silent; [apply sat_download_video; assumption | intros dl].
  apply tally_if; [apply tally_deliver | apply tally_ret].
Qed.

Lemma tally_process_channel total d idx :
  tally channel_id d (process_channel env total d (idx, channel_id)).
Proof.
  destruct not_accepted_work as [Hp He].
  unfold process_channel. destruct (get_channel env channel_id) as [channel|].
  - apply tally_silent; [apply sat_resume_cursor; assumption | intros t].
    apply tally_silent; [apply sat_history_after; assumption | intros msgs].
    apply tally_trans.
    + apply tally_for_each. intros d1 m. unfold process_message.
      apply tally_for_each. intros d2 url. apply tally_process_url.
    + intros d1.
      apply tally_silent; [apply sat_print; assumption | intros _].
      apply tally_silent; [| intros _; apply tally_ret].
      apply (sat_if _); [| apply (sat_ret _); trivial].
      apply (sat_bind _ (fun _ => True)); [apply sat_print; assumption | intros _ _].
      apply sat_emit. exact I.
  - apply tally_silent; [apply sat_print; assumption | intros _]. apply tally_ret.
Qed.
End Tally.

(** X8. In the turn of a channel that completes, the count of that channel
    grows by exactly the number of replies the platform accepted during
    the turn, and the count of every other channel stays as it was. *)
Theorem count_grows_by_accepted_replies env total counts idx channel_id w c' w' :
  process_channel env total counts (idx, channel_id) w = (Ret c', w') ->
  exists delta,
    events w' = events w ++ delta /\
    (forall k, k <> channel_id -> dict_get k c' = dict_get k counts) /\
    (forall v, dict_get channel_id counts = Some v ->
               dict_get channel_id c' = Some (v + accepted_replies delta)).
Proof.
  intros H.
  destruct (tally_process_channel channel_id env total counts idx _ _ _ H)
    as [delta [E Hd]].
  exists delta. split; [exact E |]. apply (Hd c' eq_refl).
Qed.

Lemma count_grows_by_accepted_replies_witness :
  let env := Sample.calm [Sample.another_link; Sample.two_links] 1000 in
  let run := process_channel env 8 [(Sample.first_channel, 5); (7, 1)]
               (0, Sample.first_channel) (start ∅) in
  exists delta,
    events (snd run) = [] ++ delta /\
    (forall k, k <> Sample.first_channel ->
               dict_get k [(Sample.first_channel, 8); (7, 1)] =
               dict_get k [(Sample.first_channel, 5); (7, 1)]) /\
    (forall v, dict_get Sample.first_channel [(Sample.first_channel, 5); (7, 1)] = Some v ->
               dict_get Sample.first_channel [(Sample.first_channel, 8); (7, 1)] =
               Some (v + accepted_replies delta)).
Proof.
  intros env run.
  apply (count_grows_by_accepted_replies env 8 [(Sample.first_channel, 5); (7, 1)]
           0 Sample.first_channel (start ∅)
           [(Sample.first_channel, 8); (7, 1)] (snd run)).
  vm_compute. reflexivity.
Defined.

(** ** The first dictionary, the fallback text, and errors that escape *)

Lemma dict_get_In k d : In k (map fst d) <-> is_Some (dict_get k d).
Proof.
  induction d as [|[k' v] tl IH]; simpl.
  - split; [tauto | intros [? ?]; discriminate].
  - destruct (Z.eqb_spec k k') as [->|Hne].
    + split; [eauto | tauto].
    + rewrite <- IH. split; [intros [E|H]; [congruence | exact H] | tauto].
Qed.

Lemma dict_set_keys_In k v d k0 :
  In k0 (map fst (dict_set k v d)) <-> k0 = k \/ In k0 (map fst d).
Proof.
  induction d as [|[k' x] tl IH]; simpl; [intuition congruence |].
  destruct (Z.eqb_spec k k') as [->|Hne]; simpl; [intuition congruence |].
  rewrite IH. intuition congruence.
Qed.

Lemma dict_set_keys_NoDup k v d :
  List.NoDup (map fst d) -> List.NoDup (map fst (dict_set k v d)).
Proof.
  induction d as [|[k' x] tl IH]; simpl; intros H.
  - repeat constructor. simpl. tauto.
  - apply List.NoDup_cons_iff in H as [Hk' Htl].
    destruct (Z.eqb_spec k k') as [->|Hne]; simpl.
    + constructor; assumption.
    + constructor; [| apply IH, Htl].
      rewrite dict_set_keys_In. intros [E|H]; [congruence | contradiction].
Qed.

Lemma dict_set_zero k d :
  Forall (fun e => snd e = 0) d -> Forall (fun e => snd e = 0) (dict_set k 0 d).
Proof.
  induction 1 as [|[k' x] tl Hx Htl IH]; simpl.
  - repeat constructor.
  - destruct (Z.eqb_spec k k'); constructor; try assumption; reflexivity.
Qed.

Lemma init_counts_invariant ids acc :
  List.NoDup (map fst acc) ->
  Forall (fun e => snd e = 0) acc ->
  let d := fold_left (fun d channel_id => dict_set channel_id 0 d) ids acc in
  List.NoDup (map fst d) /\
  Forall (fun e => snd e = 0) d /\
  (forall k, In k (map fst d) <-> In k ids \/ In k (map fst acc)).
Proof.
  revert acc. induction ids as [|c tl IH]; intros acc Hnd Hz; simpl.
  - repeat split; try assumption; tauto.
  - destruct (IH (dict_set c 0 acc) (dict_set_keys_NoDup _ _ _ Hnd)
                (dict_set_zero _ _ Hz)) as [H1 [H2 H3]].
    repeat split; try assumption.
    + intros H. apply H3 in H. rewrite dict_set_keys_In in H.
      intuition congruence.
    + intros H. apply H3. rewrite dict_set_keys_In. intuition congruence.
Qed.

(** X11. The dictionary of line 98 has one entry for each configured
    channel and no other, without a repeated key even when the
    configuration repeats an identifier, and every count in it is zero;
    when the configuration has no repetition, the entries are in the
    configured order. *)
Theorem init_counts_entries (ids : list Z) :
  (forall k, In k (map fst (init_counts ids)) <-> In k ids) /\
  List.NoDup (map fst (init_counts ids)) /\
  (forall k, In k ids -> dict_get k (init_counts ids) = Some 0) /\
  (forall k, ~ In k ids -> dict_get k (init_counts ids) = None) /\
  (List.NoDup ids -> map fst (init_counts ids) = ids).
Proof.
  destruct (init_counts_invariant ids [] (List.NoDup_nil _)
              (List.Forall_nil _)) as [H1 [H2 H3]].
  fold (init_counts ids) in H1, H2, H3. simpl in H3.
  assert (Hkeys : forall k, In k (map fst (init_counts ids)) <-> In k ids)
    by (intros k; rewrite H3; tauto).
  repeat split; try apply Hkeys; try exact H1.
  - intros k Hk. apply init_counts_zero, Hk.
  - intros k Hk. destruct (dict_get k (init_counts ids)) as [v|] eqn:E;
      [| reflexivity].
    destruct Hk. apply Hkeys, dict_get_In. eauto.
  - apply init_counts_keys.
Qed.

Example init_counts_repeated : init_counts [5; 7; 5] = [(5, 0); (7, 0)].
Proof. reflexivity. Qed.

Lemma init_counts_nonempty ids : ids <> [] -> init_counts ids <> [].
Proof.
  destruct ids as [|k tl]; [congruence |]. intros _ E.
  pose proof (init_counts_zero (k :: tl) k (or_introl eq_refl)) as H.
  rewrite E in H. discriminate.
Qed.

Lemma summary_text_not_fallback counts :
  counts <> [] -> summary_text counts <> "No messages processed.".
Proof.
  destruct counts as [|e tl]; [congruence |]. intros _.
  unfold summary_text. destruct tl; discriminate.
Qed.

(** What a run shows when the channel loop has completed. *)
Lemma on_ready_for_run env ids w r w' :
  on_ready_for env ids w = (r, w') ->
  exists r1 w1 d,
    for_each (process_channel env (Z.of_nat (length ids)))
      (enumerate_from 0 ids) (init_counts ids)
      {| files := files w; tick := tick w;
         events := events w ++ [Print LoggedIn] |} = (r1, w1) /\
    events w1 = (events w ++ [Print LoggedIn]) ++ d /\
    Forall not_send d /\
    match r1 with
    | Raise e => r = Raise e /\ w' = w1
    | Ret c =>
        map fst c = map fst (init_counts ids) /\
        r = Ret tt /\
        exists w2, send_summary env c w1 = (Ret tt, w2) /\
                   events w' = events w2 ++ [Close]
    end.
Proof.
  unfold on_ready_for. intros H. unfold bind at 1 in H.
  unfold print, emit in H. simpl in H. unfold bind at 1 in H.
  match type of H with
  | context [for_each ?b ?l ?s ?w0] =>
      destruct (for_each b l s w0) as [r1 w1] eqn:E
  end.
  destruct (sat_channel_loop _ _ _ _ _ _ _ E) as [[d [Ed Fd]] Hkeys].
  exists r1, w1, d. split; [reflexivity |]. split; [exact Ed |].
  split; [exact Fd |].
  destruct r1 as [c|e].
  - split; [apply Hkeys; reflexivity |].
    destruct (send_summary_step env c w1) as [step [w2 [Es _]]].
    unfold bind in H. rewrite Es in H. unfold emit in H. inversion H; subst.
    split; [reflexivity |]. exists w2. split; [exact Es | reflexivity].
  - inversion H; subst. split; reflexivity.
Qed.

(** X9. The text [No messages processed.] is what the log channel gets
    exactly when no channel is configured. With at least one channel
    configured it is never sent, to any channel, also when not a single
    message was converted: the summary then lists the zero counts. *)
Theorem fallback_text_only_without_channels env ids w r w' :
  on_ready_for env ids w = (r, w') ->
  exists delta,
    events w' = events w ++ delta /\
    (ids <> [] ->
     forall channel ok, ~ In (Send channel "No messages processed." ok) delta) /\
    (ids = [] ->
     forall log_channel, get_channel env LOG_CHANNEL_ID = Some log_channel ->
       In (Send LOG_CHANNEL_ID "No messages processed."
             (send_accepted env (tick w) LOG_CHANNEL_ID)) delta).
Proof.
  intros H.
  destruct (on_ready_for_run _ _ _ _ _ H) as [r1 [w1 [d [E [Ed [Fd Hr]]]]]].
  assert (Hd : forall channel content ok, ~ In (Send channel content ok) d).
  { intros channel content ok Hin. rewrite List.Forall_forall in Fd.
    exact (Fd _ Hin). }
  destruct r1 as [c|e].
  - destruct Hr as [Hkeys [-> [w2 [Es Ev]]]].
    pose proof (send_summary_cases env c w1) as Hs.
    destruct (get_channel env LOG_CHANNEL_ID) as [log|] eqn:Hlog.
    + simpl in Hs. rewrite Hs in Es. injection Es as <-. simpl in Ev.
      eexists. split.
      { rewrite Ev, Ed, <- !app_assoc. reflexivity. }
      split.
      * intros Hne channel ok Hin.
        assert (Hc : c <> []).
        { intros ->. apply (init_counts_nonempty _ Hne).
          destruct (init_counts ids); [reflexivity | discriminate]. }
        rewrite (summary_text_nonempty _ Hc) in Hin.
        assert (Hcases : In (Send channel "No messages processed." ok) d \/
                         summary_text c = "No messages processed.").
        { rewrite ?in_app_iff in Hin. simpl in Hin.
          destruct Hin as [[E1|[]]|[Hin|[[E2|[E3|[]]]|[E4|[]]]]];
            try discriminate; [left; exact Hin | right; congruence]. }
        destruct Hcases as [Hin'|E2]; [exact (Hd _ _ _ Hin') |].
        exact (summary_text_not_fallback _ Hc E2).
      * intros -> log_channel _. simpl in E. injection E as <- <-.
        simpl. rewrite ?in_app_iff. simpl. tauto.
    + rewrite Hs in Es. injection Es as <-. simpl in Ev.
      eexists. split.
      { rewrite Ev, Ed, <- !app_assoc. reflexivity. }
      split.
      * intros _ channel ok Hin. rewrite ?in_app_iff in Hin. simpl in Hin.
        destruct Hin as [[E1|[]]|[Hin|[[E3|[]]|[E4|[]]]]]; try discriminate.
        exact (Hd _ _ _ Hin).
      * intros _ log_channel Hl. discriminate.
  - destruct Hr as [-> ->]. exists ([Print LoggedIn] ++ d). split.
    { rewrite Ed, <- app_assoc. reflexivity. }
    split.
    + intros _ channel ok Hin. rewrite in_app_iff in Hin. simpl in Hin.
      destruct Hin as [[E1|[]]|Hin]; [discriminate | exact (Hd _ _ _ Hin)].
    + intros -> log_channel _. simpl in E. discriminate.
Qed.

Lemma fallback_text_only_without_channels_witness :
  let run := on_ready_for (Sample.calm [] 0) [] (start ∅) in
  exists delta,
    events (snd run) = [] ++ delta /\
    (@nil Z <> [] ->
     forall channel ok, ~ In (Send channel "No messages processed." ok) delta) /\
    (@nil Z = [] ->
     forall log_channel,
       get_channel (Sample.calm [] 0) LOG_CHANNEL_ID = Some log_channel ->
       In (Send LOG_CHANNEL_ID "No messages processed."
             (send_accepted (Sample.calm [] 0) 0 LOG_CHANNEL_ID)) delta).
Proof.
  intros run.
  apply (fallback_text_only_without_channels (Sample.calm [] 0) [] (start ∅)
           (fst run) (snd run)).
  vm_compute. reflexivity.
Defined.

Example zero_counts_are_listed :
  In (Send LOG_CHANNEL_ID
        (String.concat (String "010" EmptyString)
           ["total 0 msg converted in <#101>"; "total 0 msg converted in <#102>"])
        true)
     (events (snd (on_ready_for (Sample.calm [] 0) [101; 102] (start ∅)))).
Proof. vm_compute. tauto. Qed.

(** X10. When an error leaves [on_ready], nothing has been sent to the log
    channel and the connection has not been closed: the run stopped inside
    the loop over the channels. *)
Theorem escaping_error_skips_summary_and_close env ids w e w' :
  on_ready_for env ids w = (Raise e, w') ->
  exists delta,
    events w' = events w ++ delta /\
    ~ In Close delta /\
    forall channel content ok, ~ In (Send channel content ok) delta.
Proof.
  intros H.
  destruct (on_ready_for_run _ _ _ _ _ H) as [r1 [w1 [d [E [Ed [Fd Hr]]]]]].
  destruct r1 as [c|e1].
  - destruct Hr as [_ [Hr _]]. discriminate.
  - destruct Hr as [_ ->]. exists ([Print LoggedIn] ++ d).
    rewrite List.Forall_forall in Fd.
    split; [rewrite Ed, <- app_assoc; reflexivity |]. split.
    + intros Hin. rewrite in_app_iff in Hin. simpl in Hin.
      destruct Hin as [[E1|[]]|Hin]; [discriminate | exact (Fd _ Hin)].
    + intros channel content ok Hin. rewrite in_app_iff in Hin. simpl in Hin.
      destruct Hin as [[E1|[]]|Hin]; [discriminate | exact (Fd _ Hin)].
Qed.

Lemma escaping_error_skips_summary_and_close_witness :
  let env := Sample.with_history
               (fun k _ => if (k <? 2)%nat then Some [Sample.one_link] else None)
               (Sample.with_channels (fun _ => Some {| channel_name := None |})
                  (Sample.calm [] 1000)) in
  let run := on_ready env (start ∅) in
  exists delta,
    events (snd run) = [] ++ delta /\
    ~ In Close delta /\
    forall channel content ok, ~ In (Send channel content ok) delta.
Proof.
  intros env run.
  apply (escaping_error_skips_summary_and_close env CHANNEL_IDS (start ∅)
           HTTPException (snd run)).
  vm_compute. reflexivity.
Defined.
